(** * Timesheet-to-invoice conversion: a shallow embedding of
      [scripts/timesheet_agent.py] and the properties of its pipeline

    The pipeline is [load_source_dataframe] (SourceLoader),
    [extract_student_fields] (FieldExtractor), [build_target_dataframe]
    (RecordTransformer) and [write_to_template] (TemplateWriter).

    Conventions of the embedding.
    - A Python [str] is a [string]; each [ascii] stands for the code point
      of the same number, so the model covers the texts whose code points
      lie below 256.  On that range the white space of [str.split] and
      [str.strip] is 9-13, 28-32, 133 and 160, and the decimal digits of the
      regular expression class [\d] are 0-9.
    - A Python [float] is a binary64 [float] of the kernel; [round(x, 2)] is
      computed exactly, on the mantissa and exponent of [x].
    - A raised exception is the [Raise] result of the [result] type.
    - [repr] of a float, [float] of a [str] and [str] of a pandas series
      are builtins of the language and of pandas; they are taken as
      parameters (the class [Builtins]). *)

From Stdlib Require Import ZArith Strings.String Strings.Ascii Lists.List Bool Lia.
From Stdlib Require Import Floats.PrimFloat Floats.SpecFloat Floats.FloatOps.
From Stdlib Require Import DecimalString.
From stdpp Require Import gmap strings list.

(* ===================================================================== *)
(** * Part I. Definitions                                                 *)
(* ===================================================================== *)

(** ** Python strings *)

(** [str.isspace] on one character (code points below 256). *)
Definition is_space (c : ascii) : bool :=
  let n := N_of_ascii c in
  ((9 <=? n)%N && (n <=? 13)%N) || ((28 <=? n)%N && (n <=? 32)%N)
  || (n =? 133)%N || (n =? 160)%N.

(** [s.lstrip()], [s.rstrip()] and [s.strip()]. *)
Fixpoint lstrip (s : string) : string :=
  match s with
  | EmptyString => EmptyString
  | String c s' => if is_space c then lstrip s' else s
  end.

Fixpoint rstrip (s : string) : string :=
  match s with
  | EmptyString => EmptyString
  | String c s' =>
      match rstrip s' with
      | EmptyString => if is_space c then EmptyString else String c EmptyString
      | r => String c r
      end
  end.

Definition strip (s : string) : string := rstrip (lstrip s).

(** Truth value of a [str]: the empty string is false. *)
Definition str_nonempty (s : string) : bool :=
  match s with EmptyString => false | String _ _ => true end.

(** [s.split()]: the scan of CPython, which skips white space and cuts a
    token at the next white space; [cur] is the token being read. *)
Fixpoint split_loop (s : string) (cur : string) : list string :=
  match s with
  | EmptyString => if str_nonempty cur then [cur] else []
  | String c s' =>
      if is_space c
      then (if str_nonempty cur then cur :: split_loop s' EmptyString
            else split_loop s' EmptyString)
      else split_loop s' (cur +:+ String c EmptyString)
  end.

Definition split (s : string) : list string := split_loop s EmptyString.

(** [sep.join(parts)]. *)
Definition join (sep : string) (parts : list string) : string :=
  String.concat sep parts.

(** Decimal text of a natural number padded with zeros to [width] digits,
    as the [%m], [%d] and [%Y] fields of [strftime] print it. *)
Definition string_of_nat (n : nat) : string :=
  NilZero.string_of_uint (Nat.to_uint n).

Fixpoint zeros (k : nat) : string :=
  match k with O => EmptyString | S k' => String "0"%char (zeros k') end.

Definition zero_pad (width n : nat) : string :=
  let d := string_of_nat n in
  zeros (width - String.length d) +:+ d.

(** ** FieldExtractor *)

Definition is_ascii_letter (c : ascii) : bool :=
  let n := N_of_ascii c in
  ((65 <=? n)%N && (n <=? 90)%N) || ((97 <=? n)%N && (n <=? 122)%N).

Definition is_decimal_digit (c : ascii) : bool :=
  let n := N_of_ascii c in (48 <=? n)%N && (n <=? 57)%N.

(** A small matcher for the fragment of [re] that the pattern uses: a
    sequence of character classes, each repeated a fixed number of times,
    anchored at both ends.  [$] matches at the end of the text and also
    just before a line feed that ends the text. *)
Fixpoint match_class (p : ascii -> bool) (k : nat) (s : string) : option string :=
  match k with
  | O => Some s
  | S k' =>
      match s with
      | String c s' => if p c then match_class p k' s' else None
      | EmptyString => None
      end
  end.

Definition match_end (s : string) : bool :=
  match s with
  | EmptyString => true
  | String c EmptyString => (N_of_ascii c =? 10)%N
  | _ => false
  end.

(** [STUDENT_ID_PATTERN = re.compile(r"^[A-Za-z]{2}\d{6}$")], applied with
    [STUDENT_ID_PATTERN.match]. *)
Definition STUDENT_ID_PATTERN (s : string) : bool :=
  match match_class is_ascii_letter 2 s with
  | Some s1 =>
      match match_class is_decimal_digit 6 s1 with
      | Some s2 => match_end s2
      | None => false
      end
  | None => false
  end.

(** [dedupe_tokens]: the loop over [tokens] with the set [seen] and the
    list [ordered]. *)
Fixpoint dedupe_loop (tokens : list string) (seen : gset string)
    (ordered : list string) : list string :=
  match tokens with
  | [] => ordered
  | token :: rest =>
      if decide (token ∈ seen)
      then dedupe_loop rest seen ordered
      else dedupe_loop rest ({[token]} ∪ seen) (ordered ++ [token])
  end.

Definition dedupe_tokens (tokens : list string) : list string :=
  dedupe_loop tokens ∅ [].

(** The tokens of a description:
    [[token.strip() for token in text.split() if token.strip()]]. *)
Definition tokenize (text : string) : list string :=
  List.map strip (List.filter (fun token => str_nonempty (strip token)) (split text)).

(** The [for index, token in enumerate(tokens)] loop of
    [extract_student_fields]; [rest] is what is left to visit and [index]
    the position of its head in [tokens].  The loop ends at the first
    match ([break]); when it runs out the two defaults are returned. *)
Fixpoint scan_tokens (tokens : list string) (index : nat) (rest : list string)
    : string * string :=
  match rest with
  | [] => (EmptyString, EmptyString)
  | token :: rest' =>
      if STUDENT_ID_PATTERN token then
        let left_tokens := take index tokens in
        let right_tokens := drop (index + 1) tokens in
        let candidate :=
          if (length left_tokens <? length right_tokens)%nat then right_tokens
          else if (length right_tokens =? length left_tokens)%nat then left_tokens
          else left_tokens in
        let candidate := dedupe_tokens candidate in
        (token, strip (join " " candidate))
      else scan_tokens tokens (S index) rest'
  end.

(** [extract_student_fields] on a text ([str(activity)] is applied by
    [extract_student_fields] below, once cell values are defined). *)
Definition extract_from_text (text : string) : string * string :=
  let tokens := tokenize text in
  scan_tokens tokens 0 tokens.

(** ** Python floats *)

(** [float(n)] for an integer [n]: the nearest binary64, ties to even;
    [OverflowError] (here [None]) when [n] is too large. *)
Definition float_of_int (z : Z) : option float :=
  let f := SF2Prim (binary_normalize prec emax z 0 false) in
  if is_infinity f then None else Some f.

(** The integer nearest to [a / d], ties to even ([0 <= a], [0 < d]). *)
Definition div_half_even (a d : Z) : Z :=
  let q := (a / d)%Z in
  let r := (a mod d)%Z in
  if (2 * r <? d)%Z then q
  else if (d <? 2 * r)%Z then (q + 1)%Z
  else if Z.even q then q else (q + 1)%Z.

(** [round(x, 2)]: the exact value of [x] is rounded to a whole number [n]
    of hundredths, ties to even, and the result is the binary64 nearest to
    [n / 100]; zeros, infinities and NaN round to themselves. *)
Definition round_2 (x : float) : float :=
  match Prim2SF x with
  | S754_finite s m e =>
      let n :=
        if (0 <=? e)%Z then (Zpos m * 2 ^ e * 100)%Z
        else div_half_even (Zpos m * 100) (2 ^ (- e)) in
      match n with
      | Zpos p =>
          SF2Prim (SFdiv prec emax (S754_finite s p 0) (S754_finite false 100 0))
      | _ => SF2Prim (S754_zero s)
      end
  | _ => x
  end.

(** ** Cell values *)

(** A [datetime] (or pandas [Timestamp]) with whole seconds.  As in
    Python the year is between 1 and 9999, the month between 1 and 12,
    the day a day of that month, and the time a time of the day; a value
    of the type carries the proof of it. *)
Definition is_leap (y : nat) : bool :=
  (y mod 4 =? 0)%nat && (negb (y mod 100 =? 0)%nat || (y mod 400 =? 0)%nat).

Definition days_in_month (y m : nat) : nat :=
  match m with
  | 1 | 3 | 5 | 7 | 8 | 10 | 12 => 31
  | 4 | 6 | 9 | 11 => 30
  | 2 => if is_leap y then 29 else 28
  | _ => 0
  end.

Definition valid_datetime (y m d h mi sec : nat) : bool :=
  (1 <=? y)%nat && (Z.of_nat y <=? 9999)%Z
  && (1 <=? m)%nat && (m <=? 12)%nat
  && (1 <=? d)%nat && (d <=? days_in_month y m)%nat
  && (h <? 24)%nat && (mi <? 60)%nat && (sec <? 60)%nat.

Record datetime := mk_datetime {
  year : nat; month : nat; day : nat;
  hour : nat; minute : nat; second : nat;
  datetime_valid : valid_datetime year month day hour minute second = true
}.

(** What a cell of the table read by [pd.read_excel(path, header=None)]
    holds.  An empty cell is the float NaN; [CNone] is Python's [None],
    the default of [row.get] for a label that the row does not have. *)
Inductive cell :=
| CNone
| CStr (s : string)
| CBool (b : bool)
| CInt (z : Z)
| CFloat (f : float)
| CDate (d : datetime).

(** The builtins of the language and of pandas that the program calls and
    whose text output or parser is not part of it. *)
Class Builtins := {
  float_repr : float -> string;          (* repr(x) of a float that is not NaN *)
  float_of_str : string -> option float; (* float(s); None is ValueError *)
  series_repr : list cell -> string      (* str(series) of a pandas Series *)
}.

(** [pd.isna(v)] on a scalar. *)
Definition isna (v : cell) : bool :=
  match v with
  | CNone => true
  | CFloat f => is_nan f
  | _ => false
  end.

(** [bool(v)]: the truth value that [v or ""] tests. *)
Definition truthy (v : cell) : bool :=
  match v with
  | CNone => false
  | CStr s => str_nonempty s
  | CBool b => b
  | CInt z => negb (z =? 0)%Z
  | CFloat f => negb (PrimFloat.eqb f 0)
  | CDate _ => true
  end.

(** [d.strftime("%m/%d/%Y")]: the month and the day on two digits, the
    year in decimal as it is ([%Y] does not pad a year before 1000); and
    [str(d)], which pads the year to four digits. *)
Definition strftime_mdY (d : datetime) : string :=
  zero_pad 2 (month d) +:+ "/" +:+ zero_pad 2 (day d) +:+ "/" +:+ string_of_nat (year d).

Definition datetime_str (d : datetime) : string :=
  zero_pad 4 (year d) +:+ "-" +:+ zero_pad 2 (month d) +:+ "-" +:+ zero_pad 2 (day d)
  +:+ " " +:+ zero_pad 2 (hour d) +:+ ":" +:+ zero_pad 2 (minute d) +:+ ":"
  +:+ zero_pad 2 (second d).

Section Scalars.
Context `{Builtins}.

(** [str(v)]. *)
Definition py_str (v : cell) : string :=
  match v with
  | CNone => "None"
  | CStr s => s
  | CBool b => if b then "True" else "False"
  | CInt z => NilZero.string_of_int (Z.to_int z)
  | CFloat f => if is_nan f then "nan" else float_repr f
  | CDate d => datetime_str d
  end.

(** [float(v)]; [None] stands for the ValueError, TypeError or
    OverflowError of the builtin. *)
Definition to_float (v : cell) : option float :=
  match v with
  | CNone => None
  | CStr s => float_of_str s
  | CBool b => Some (if b then 1%float else 0%float)
  | CInt z => float_of_int z
  | CFloat f => Some f
  | CDate _ => None
  end.

End Scalars.

(** ** Exceptions *)

Inductive exn :=
| ValueError (msg : string)   (* raised by the program, with its message *)
| FloatConversionError        (* what float(v) raises *)
| AmbiguousTruthError         (* ValueError of bool(series) in pandas *)
| IndexError.                 (* a list index out of range *)

Inductive result (A : Type) :=
| Ok (a : A)
| Raise (e : exn).
Arguments Ok {A} a.
Arguments Raise {A} e.

Definition bind {A B : Type} (r : result A) (k : A -> result B) : result B :=
  match r with
  | Ok a => k a
  | Raise e => Raise e
  end.

Notation "'let?' x ':=' r 'in' k" := (bind r (fun x => k))
  (at level 10, x name, r at level 100, k at level 200).

(** ** SourceLoader *)

Definition EXPECTED_SOURCE_COLUMNS : list string :=
  [ "ActivityDescription"; "TherapistName"; "Date"; "PlacementDesc";
    "RateName"; "EntryQuantity"; "ChargeRate"; "TotalCharge" ]%string.

(** A pandas DataFrame: the column labels and the rows, each row holding
    one cell per label.  A label is a cell: the header row is read from the
    sheet like any other row. *)
Record DataFrame := mk_frame {
  columns : list cell;
  rows : list (list cell)
}.

(** [label == name] for a label of the column index. *)
Definition label_is (name : string) (label : cell) : bool :=
  match label with
  | CStr s => String.eqb s name
  | _ => false
  end.

(** [name in index]. *)
Definition label_in (name : string) (index : list cell) : bool :=
  existsb (label_is name) index.

(** The cells of [row] under the labels equal to [name], from left to
    right: pandas keeps every column that carries a repeated label. *)
Definition cells_at (name : string) (index row : list cell) : list cell :=
  List.map snd (List.filter (fun lc => label_is name (fst lc)) (combine index row)).

(** [df[names]]. *)
Definition select_columns (names : list string) (df : DataFrame) : DataFrame :=
  {| columns := flat_map (fun name => List.filter (label_is name) (columns df)) names;
     rows := List.map (fun row => flat_map (fun name => cells_at name (columns df) row) names)
               (rows df) |}.

(** [df.dropna(how="all")]. *)
Definition dropna_all (body : list (list cell)) : list (list cell) :=
  List.filter (fun row => negb (forallb isna row)) body.

(** [repr] of a list of plain column names, as the f-string prints it. *)
Definition names_repr (names : list string) : string :=
  "[" +:+ join ", " (List.map (fun name => "'" +:+ name +:+ "'") names) +:+ "]".

Definition insufficient_rows_message : string :=
  "Source workbook must contain at least three rows (title, headers, data).".

Definition missing_columns_message (missing : list string) : string :=
  "Missing expected columns in source file: " +:+ names_repr missing.

(** [load_source_dataframe], from the table [raw] that [pd.read_excel]
    returns. *)
Definition load_source_dataframe (raw : list (list cell)) : result DataFrame :=
  if (length raw <? 3)%nat then Raise (ValueError insufficient_rows_message)
  else
    let headers := nth 1 raw [] in
    let df_source := {| columns := headers; rows := dropna_all (drop 2 raw) |} in
    let missing :=
      List.filter (fun col => negb (label_in col (columns df_source)))
        EXPECTED_SOURCE_COLUMNS in
    match missing with
    | _ :: _ => Raise (ValueError (missing_columns_message missing))
    | [] => Ok (select_columns EXPECTED_SOURCE_COLUMNS df_source)
    end.

(** ** RecordTransformer *)

Definition TARGET_COLUMNS : list string :=
  [ "Therapist Name"; "Date of Service"; "PA Cyber Student ID"; "Student Name";
    "Service"; "Therapy ONLY Session Minutes on IEP " ]%string.

(** What [row.get(name)] returns for a row of the frame: the cell under
    the label; [None] when no column carries the label; and, as pandas has
    it, the sub-series of all the cells under a label that is repeated. *)
Inductive pyobj :=
| Scalar (v : cell)
| Series (vs : list cell).

Definition row_get (index row : list cell) (name : string) : pyobj :=
  match cells_at name index row with
  | [] => Scalar CNone
  | [v] => Scalar v
  | vs => Series vs
  end.

(** A value written to the sheet: a text or a number. *)
Inductive value :=
| VStr (s : string)
| VFloat (f : float).

(** One record of the target frame; the fields are in the order of
    [TARGET_COLUMNS]. *)
Record TargetRecord := mk_target {
  TherapistName : string;
  DateOfService : string;
  StudentId : string;
  StudentName : string;
  Service : string;
  MinutesOnIEP : value
}.

(** The dict [record] that the loop assembles. *)
Definition record_dict (r : TargetRecord) : list (string * value) :=
  [ ("Therapist Name", VStr (TherapistName r));
    ("Date of Service", VStr (DateOfService r));
    ("PA Cyber Student ID", VStr (StudentId r));
    ("Student Name", VStr (StudentName r));
    ("Service", VStr (Service r));
    ("Therapy ONLY Session Minutes on IEP ", MinutesOnIEP r) ]%string.

Fixpoint dict_get (key : string) (d : list (string * value)) : option value :=
  match d with
  | [] => None
  | (k, v) :: d' => if String.eqb k key then Some v else dict_get key d'
  end.

(** [row.tolist()] for a row of [pd.DataFrame(records, columns=TARGET_COLUMNS)]:
    the values of the dict in the order of [TARGET_COLUMNS] (a key that a
    dict lacks would give NaN). *)
Definition record_values (r : TargetRecord) : list value :=
  List.map (fun column => default (VFloat nan) (dict_get column (record_dict r)))
    TARGET_COLUMNS.

Section Transformer.
Context `{Builtins}.

(** [str(o)]. *)
Definition obj_str (o : pyobj) : string :=
  match o with
  | Scalar v => py_str v
  | Series vs => series_repr vs
  end.

(** The truth test of [o or ""]; pandas refuses it on a series. *)
Definition obj_truth (o : pyobj) : result bool :=
  match o with
  | Scalar v => Ok (truthy v)
  | Series _ => Raise AmbiguousTruthError
  end.

(** The test [if pd.notna(o):]; on a series [pd.notna] returns a series,
    whose truth value pandas refuses. *)
Definition obj_notna (o : pyobj) : result bool :=
  match o with
  | Scalar v => Ok (negb (isna v))
  | Series _ => Raise AmbiguousTruthError
  end.

(** [float(o)]. *)
Definition obj_float (o : pyobj) : result float :=
  match o with
  | Scalar v =>
      match to_float v with
      | Some f => Ok f
      | None => Raise FloatConversionError
      end
  | Series _ => Raise FloatConversionError
  end.

(** [str(o or "").strip()]. *)
Definition clean_text (o : pyobj) : result string :=
  let? t := obj_truth o in
  Ok (strip (obj_str (if t then o else Scalar (CStr EmptyString)))).

(** [extract_student_fields(activity)]. *)
Definition extract_student_fields (activity : pyobj) : string * string :=
  extract_from_text (obj_str activity).

(** The body of the loop of [build_target_dataframe] for a row that is not
    skipped. *)
Definition build_record (index row : list cell) : result TargetRecord :=
  let '(student_id, student_name) :=
    extract_student_fields (row_get index row "ActivityDescription") in
  let? therapist_name := clean_text (row_get index row "TherapistName") in
  let date_value := row_get index row "Date" in
  let? has_date := obj_notna date_value in
  let date_str :=
    if has_date then
      match date_value with
      | Scalar (CDate d) => strftime_mdY d
      | _ => strip (obj_str date_value)
      end
    else EmptyString in
  let? service_value := clean_text (row_get index row "PlacementDesc") in
  let entry_quantity := row_get index row "EntryQuantity" in
  let? has_quantity := obj_notna entry_quantity in
  let? minutes_value :=
    if has_quantity then
      let? hours := obj_float entry_quantity in
      Ok (VFloat (round_2 (hours * 60)))
    else Ok (VStr EmptyString) in
  Ok {| TherapistName := therapist_name;
        DateOfService := date_str;
        StudentId := student_id;
        StudentName := student_name;
        Service := service_value;
        MinutesOnIEP := minutes_value |}.

(** The loop [for _, row in df_source.iterrows()], with the list
    [records] it appends to. *)
Fixpoint build_loop (index : list cell) (body : list (list cell))
    (records : list TargetRecord) : result (list TargetRecord) :=
  match body with
  | [] => Ok records
  | row :: rest =>
      if forallb isna row then build_loop index rest records
      else
        let? record := build_record index row in
        build_loop index rest (records ++ [record])
  end.

(** [build_target_dataframe]; the target frame is the list of its
    records, each with the six columns of [TARGET_COLUMNS]. *)
Definition build_target_dataframe (df_source : DataFrame) : result (list TargetRecord) :=
  build_loop (columns df_source) (rows df_source) [].

End Transformer.

(** ** TemplateWriter *)

(** The background fill of a cell; [PatternFill(fill_type=None)] is
    [NoFill]. *)
Inductive fill :=
| NoFill
| PatternFill (fill_type : string) (color : string).

(** A cell of the sheet: its value, its fill and the rest of its style. *)
Record sheet_cell := mk_sheet_cell {
  cell_value : option value;
  cell_fill : fill;
  cell_style : string
}.

Definition blank_cell : sheet_cell :=
  {| cell_value := None; cell_fill := NoFill; cell_style := EmptyString |}.

(** The active sheet, by column letter and row number; [worksheet[coord]]
    gives the cell at [coord], a blank one when the sheet has none there. *)
Abbreviation worksheet := (gmap (string * nat) sheet_cell).

Definition sheet_at (ws : worksheet) (coord : string * nat) : sheet_cell :=
  default blank_cell (ws !! coord).

Definition set_value (v : value) (c : sheet_cell) : sheet_cell :=
  {| cell_value := Some v; cell_fill := cell_fill c; cell_style := cell_style c |}.

Definition set_fill (f : fill) (c : sheet_cell) : sheet_cell :=
  {| cell_value := cell_value c; cell_fill := f; cell_style := cell_style c |}.

Definition start_row : nat := 7.

Definition column_letters : list string := [ "A"; "B"; "C"; "D"; "E"; "F" ]%string.

(** The inner loop [for col_idx, value in enumerate(values)]. *)
Fixpoint write_values (ws : worksheet) (row_index col_idx : nat)
    (values : list value) : result worksheet :=
  match values with
  | [] => Ok ws
  | v :: rest =>
      match column_letters !! col_idx with
      | None => Raise IndexError
      | Some letter =>
          let coord := (letter, row_index) in
          let ws1 := <[coord := set_value v (sheet_at ws coord)]> ws in
          let ws2 := <[coord := set_fill NoFill (sheet_at ws1 coord)]> ws1 in
          write_values ws2 row_index (S col_idx) rest
      end
  end.

(** The outer loop
    [for row_index, (_, row) in enumerate(df_target.iterrows(), start=start_row)]. *)
Fixpoint write_rows (ws : worksheet) (row_index : nat)
    (records : list TargetRecord) : result worksheet :=
  match records with
  | [] => Ok ws
  | record :: rest =>
      let? ws' := write_values ws row_index 0 (record_values record) in
      write_rows ws' (S row_index) rest
  end.

(** [write_to_template]: the sheet of the saved workbook, from the sheet of
    the copied template.  The embedding is the two loops of the function
    on a sheet that is there and whose cells in the data area can be
    written (none is part of a merged range); the steps on files (the
    copy of the template, which fails when there is no template, the load
    and the save) are calls of the libraries and lie outside it. *)
Definition write_to_template (df_target : list TargetRecord) (template : worksheet)
    : result worksheet :=
  write_rows template start_row df_target.

(** [convert_timesheet], from the table of the source workbook and the
    sheet of the template to the sheet of the output workbook. *)
Definition convert_timesheet `{Builtins} (raw : list (list cell)) (template : worksheet)
    : result worksheet :=
  let? df_source := load_source_dataframe raw in
  let? df_target := build_target_dataframe df_source in
  write_to_template df_target template.

(** An instance of the builtins on which the definitions can be run: it
    reads the texts that consist of decimal digits only, prints every
    float as [<float>] and every series as [<series>]. *)
Fixpoint digits_value (s : string) (acc : Z) : option Z :=
  match s with
  | EmptyString => Some acc
  | String c s' =>
      if is_decimal_digit c
      then digits_value s' (10 * acc + (Z.of_N (N_of_ascii c) - 48))%Z
      else None
  end.

Definition digits_only_float (s : string) : option float :=
  match s with
  | EmptyString => None
  | _ => match digits_value s 0 with Some z => float_of_int z | None => None end
  end.

Definition sample_builtins : Builtins :=
  {| float_repr := fun _ => "<float>"%string;
     float_of_str := digits_only_float;
     series_repr := fun _ => "<series>"%string |}.

(** ** Vocabulary of the statements *)

Fixpoint string_forall (p : ascii -> bool) (s : string) : bool :=
  match s with
  | EmptyString => true
  | String c s' => p c && string_forall p s'
  end.

Definition no_space (s : string) : bool :=
  string_forall (fun c => negb (is_space c)) s.

(** A token: a non-empty text without white space (so it is trimmed). *)
Definition is_token (s : string) : bool := str_nonempty s && no_space s.

Definition starts_with_space (s : string) : bool :=
  match s with
  | EmptyString => false
  | String c _ => is_space c
  end.

(** [text] cut at its white space: the runs of white space are dropped and
    each token is a run of other characters that ends at a white space or
    at the end of the text. *)
Inductive splits : string -> list string -> Prop :=
| splits_end : splits EmptyString []
| splits_space c s ts :
    is_space c = true -> splits s ts -> splits (String c s) ts
| splits_token t s ts :
    is_token t = true -> s = EmptyString \/ starts_with_space s = true ->
    splits s ts -> splits (t +:+ s) (t :: ts).

(** The identifier pattern in words: exactly two letters followed by
    exactly six digits. *)
Definition id_shape (t : string) : bool :=
  match list_ascii_of_string t with
  | [a; b; d1; d2; d3; d4; d5; d6] =>
      forallb is_ascii_letter [a; b] && forallb is_decimal_digit [d1; d2; d3; d4; d5; d6]
  | _ => false
  end.

(** The tokens of [l] without their later repetitions: each token stays
    at its first occurrence. *)
Fixpoint first_occurrences (l : list string) : list string :=
  match l with
  | [] => []
  | x :: l' => x :: List.filter (fun y => negb (String.eqb y x)) (first_occurrences l')
  end.

(** The side of the identifier that gives the name: the one with more
    tokens, the left one on a tie. *)
Definition longer_side (left right : list string) : list string :=
  if (length left <? length right)%nat then right else left.

(** The required labels that the header row does not carry, in the
    canonical order. *)
Definition absent_columns (header : list cell) : list string :=
  List.filter (fun name => negb (label_in name header)) EXPECTED_SOURCE_COLUMNS.

(** The two failures of the loader.  The program raises [ValueError] for
    both and tells them apart by the message: the first one is the
    InsufficientRowsError of the specification, the second one its
    MissingColumnsError, which names the columns [missing]. *)
Definition InsufficientRowsError : exn := ValueError insufficient_rows_message.

Definition MissingColumnsError (missing : list string) : exn :=
  ValueError (missing_columns_message missing).

Definition is_missing_columns_error {A} (r : result A) : Prop :=
  exists missing, r = Raise (MissingColumnsError missing).

(** How many columns carry the label [name]. *)
Definition label_count (name : string) (index : list cell) : nat :=
  length (List.filter (label_is name) index).

(** The position of the first column labelled [name], and the cell of a
    row in that column. *)
Fixpoint label_position (name : string) (index : list cell) : nat :=
  match index with
  | [] => 0
  | label :: rest => if label_is name label then 0 else S (label_position name rest)
  end.

Definition cell_under (name : string) (index row : list cell) : cell :=
  nth (label_position name index) row CNone.

(** A table is rectangular: every row has one cell per column. *)
Definition rectangular (width : nat) (table : list (list cell)) : Prop :=
  Forall (fun row => length row = width) table.

(** The cells of a row in the columns that carry a required label. *)
Definition required_cells (header row : list cell) : list cell :=
  flat_map (fun name => cells_at name header row) EXPECTED_SOURCE_COLUMNS.

(** A row is empty when every cell of it is null. *)
Definition empty_row (row : list cell) : bool := forallb isna row.

(** ** Sample tables *)

Definition march_5_2024 : datetime := mk_datetime 2024 3 5 0 0 0 eq_refl.


(** The cell of an empty spreadsheet cell. *)
Definition NaN : cell := CFloat nan.

(** A source table: title row, header row (in an order of its own, with a
    column [Notes] that is not required), a full row, an empty row, a row
    with a note only, and a row without therapist. *)
Definition sample_raw : list (list cell) :=
  [ [ CStr "Timesheet"; NaN; NaN; NaN; NaN; NaN; NaN; NaN; NaN ];
    [ CStr "Date"; CStr "TherapistName"; CStr "ActivityDescription"; CStr "Notes";
      CStr "PlacementDesc"; CStr "RateName"; CStr "EntryQuantity"; CStr "ChargeRate";
      CStr "TotalCharge" ];
    [ CDate march_5_2024; CStr "Ann Lee "; CStr "Jane AB123456 Doe Smith";
      NaN; CStr "Speech"; CStr "Hourly"; CFloat 1.5; CInt 50; CInt 75 ];
    [ NaN; NaN; NaN; NaN; NaN; NaN; NaN; NaN; NaN ];
    [ NaN; NaN; NaN; CStr "see above"; NaN; NaN; NaN; NaN; NaN ];
    [ CStr " 03/06/2024"; NaN; CStr "Math Tutoring CD654321 Sam Roe"; NaN; CStr "OT";
      CStr "Hourly"; CInt 2; CStr "n/a"; CStr "n/a" ] ].

(** A source table whose header row carries the label [Date] twice. *)
Definition repeated_label_raw : list (list cell) :=
  [ [ CStr "Timesheet"; NaN; NaN; NaN; NaN; NaN; NaN; NaN; NaN ];
    [ CStr "ActivityDescription"; CStr "TherapistName"; CStr "Date"; CStr "Date";
      CStr "PlacementDesc"; CStr "RateName"; CStr "EntryQuantity"; CStr "ChargeRate";
      CStr "TotalCharge" ];
    [ CStr "Jane AB123456 Doe Smith"; CStr "Ann Lee"; CStr "03/05/2024"; CStr "03/06/2024";
      CStr "Speech"; CStr "Hourly"; CFloat 1.5; CInt 50; CInt 75 ] ].

(** The frame that the loader returns for [sample_raw], and the records
    that the transformer builds from it under [sample_builtins]. *)
Definition sample_source : DataFrame :=
  {| columns := List.map CStr EXPECTED_SOURCE_COLUMNS;
     rows :=
       [ [ CStr "Jane AB123456 Doe Smith"; CStr "Ann Lee "; CDate march_5_2024;
           CStr "Speech"; CStr "Hourly"; CFloat 1.5; CInt 50; CInt 75 ];
         [ NaN; NaN; NaN; NaN; NaN; NaN; NaN; NaN ];
         [ CStr "Math Tutoring CD654321 Sam Roe"; NaN; CStr " 03/06/2024"; CStr "OT";
           CStr "Hourly"; CInt 2; CStr "n/a"; CStr "n/a" ] ] |}.

Definition sample_records : list TargetRecord :=
  [ {| TherapistName := "Ann Lee"; DateOfService := "03/05/2024"; StudentId := "AB123456";
       StudentName := "Doe Smith"; Service := "Speech"; MinutesOnIEP := VFloat 90 |};
    {| TherapistName := "nan"; DateOfService := "03/06/2024"; StudentId := "CD654321";
       StudentName := "Math Tutoring"; Service := "OT"; MinutesOnIEP := VFloat 120 |} ].

(** The frame that the loader returns for [repeated_label_raw]. *)
Definition repeated_label_source : DataFrame :=
  {| columns :=
       [ CStr "ActivityDescription"; CStr "TherapistName"; CStr "Date"; CStr "Date";
         CStr "PlacementDesc"; CStr "RateName"; CStr "EntryQuantity"; CStr "ChargeRate";
         CStr "TotalCharge" ];
     rows :=
       [ [ CStr "Jane AB123456 Doe Smith"; CStr "Ann Lee"; CStr "03/05/2024";
           CStr "03/06/2024"; CStr "Speech"; CStr "Hourly"; CFloat 1.5; CInt 50; CInt 75 ] ] |}.

(** The cell that a write leaves: the value written, no fill, and the
    rest of the style that the cell [old] had. *)
Definition written (v : value) (old : sheet_cell) : sheet_cell :=
  {| cell_value := Some v; cell_fill := NoFill; cell_style := cell_style old |}.

(** A template sheet with a title and with a filled cell in the data
    area. *)
Definition sample_template : worksheet :=
  {[ ("A"%string, 1) := mk_sheet_cell (Some (VStr "Invoice")) NoFill "bold";
     ("C"%string, 7) := mk_sheet_cell None (PatternFill "solid" "FFFF0000") "border" ]}.

(** The position of a column letter among [column_letters], and the
    value that the writer puts at a coordinate for a list of records: the
    field of record [r - start_row] in the column of the letter, when
    there is one. *)
Fixpoint index_of (x : string) (l : list string) : option nat :=
  match l with
  | [] => None
  | y :: l' => if String.eqb y x then Some 0 else option_map S (index_of x l')
  end.

Definition value_at (df_target : list TargetRecord) (letter : string) (r : nat)
    : option value :=
  if (start_row <=? r)%nat then
    match df_target !! (r - start_row), index_of letter column_letters with
    | Some record, Some j => record_values record !! j
    | _, _ => None
    end
  else None.

(** The sheet after the first of [sample_records] is written on
    [sample_template]. *)
Definition sample_first_sheet : worksheet :=
  match write_to_template (take 1 sample_records) sample_template with
  | Ok sheet => sheet
  | Raise _ => sample_template
  end.

(** The sheet that the conversion of [sample_raw] returns on
    [sample_template] under [sample_builtins]. *)
Definition sample_converted_sheet : worksheet :=
  match @convert_timesheet sample_builtins sample_raw sample_template with
  | Ok sheet => sheet
  | Raise _ => sample_template
  end.

(** ** Vocabulary of the failures of the transformer *)





(** What [str(v or "").strip()] is for each kind of cell: the text [t]
    of the cell [v]. *)
Definition text_of_cell `{Builtins} (v : cell) (t : string) : Prop :=
  match v with
  | CNone => t = EmptyString
  | CStr s => t = strip s
  | CBool b => t = if b then "True"%string else EmptyString
  | CInt z => t = if (z =? 0)%Z then EmptyString else NilZero.string_of_int (Z.to_int z)
  | CFloat f =>
      t = if (f =? 0)%float then EmptyString
          else if is_nan f then "nan"%string
          else strip (float_repr f)
  | CDate d => t = strip (datetime_str d)
  end.

(** ** Vocabulary of the date and of the minutes *)





(** [n] hundredths is the decimal number of two places nearest to the
    number [m * 2 ^ e], the even one of the two when it lies half way. *)
Definition nearest_hundredths (m : positive) (e : Z) (n : Z) : Prop :=
  let num := (Zpos m * 100 * 2 ^ Z.max e 0)%Z in
  let den := (2 ^ Z.max (- e) 0)%Z in
  (0 <= n)%Z /\
  (2 * Z.abs (num - n * den) <= den)%Z /\
  ((2 * Z.abs (num - n * den) = den)%Z -> Z.even n = true).

(** The binary64 number that [n] hundredths gives, with the sign [s]: the
    quotient of [n] by 100 as the division of IEEE 754 rounds it. *)
Definition hundredths_float (s : bool) (n : Z) : float :=
  match n with
  | Zpos p => SF2Prim (SFdiv prec emax (S754_finite s p 0) (S754_finite false 100 0))
  | _ => SF2Prim (S754_zero s)
  end.

(** [r] is [x] rounded to two decimal places: a number that is not finite
    or is zero stays, and a finite [x = m * 2 ^ e] gives the float of the
    nearest number of hundredths. *)
Definition rounded_to_hundredths (x r : float) : Prop :=
  match Prim2SF x with
  | S754_finite s m e => exists n, nearest_hundredths m e n /\ r = hundredths_float s n
  | _ => r = x
  end.





(* ===================================================================== *)
(** * Part II. Properties                                                 *)
(* ===================================================================== *)

Example extract_tie :
  extract_from_text "Math Tutoring AB123456 Jane Doe" = ("AB123456", "Math Tutoring")%string.
Proof. vm_compute. reflexivity. Qed.

Example extract_right :
  extract_from_text "Jane AB123456 Doe Smith" = ("AB123456", "Doe Smith")%string.
Proof. vm_compute. reflexivity. Qed.

Example extract_no_identifier :
  extract_from_text "Speech therapy with A1234567 today" = (EmptyString, EmptyString).
Proof. vm_compute. reflexivity. Qed.

Example dedupe_xyxz :
  dedupe_tokens ["x"; "y"; "x"; "z"]%string = ["x"; "y"; "z"]%string.
Proof. vm_compute. reflexivity. Qed.


(** ** Rounding *)

Section Rounding.

(** The whole number that [round_2] takes is nearest to the exact
    quotient: it is off by half a unit at most. *)
Lemma div_half_even_nearest (a d : Z) :
  (0 <= a)%Z -> (0 < d)%Z ->
  (2 * Z.abs (a - d * div_half_even a d) <= d)%Z.
Proof.
  intros Ha Hd. unfold div_half_even.
  pose proof (Z.div_mod a d ltac:(lia)) as Hdiv.
  pose proof (Z.mod_pos_bound a d Hd) as Hmod.
  destruct (Z.ltb_spec (2 * (a mod d)) d); [lia |].
  destruct (Z.ltb_spec d (2 * (a mod d))); [lia |].
  destruct (Z.even (a / d)); lia.
Qed.

(** On a tie the even neighbour is taken. *)
Lemma div_half_even_tie (a d : Z) :
  (0 < d)%Z -> (2 * (a mod d) = d)%Z -> Z.even (div_half_even a d) = true.
Proof.
  intros Hd Htie. unfold div_half_even.
  destruct (Z.ltb_spec (2 * (a mod d)) d); [lia |].
  destruct (Z.ltb_spec d (2 * (a mod d))); [lia |].
  destruct (Z.even (a / d)) eqn:Heven; [exact Heven |].
  rewrite Z.even_add, Heven. reflexivity.
Qed.



(** Rounding to two decimal places has one result. *)
Lemma nearest_hundredths_unique (m : positive) (e n n' : Z) :
  nearest_hundredths m e n -> nearest_hundredths m e n' -> n = n'.
Proof.
  unfold nearest_hundredths.
  set (num := (Zpos m * 100 * 2 ^ Z.max e 0)%Z).
  assert (Hden : (0 < 2 ^ Z.max (- e) 0)%Z) by (apply Z.pow_pos_nonneg; lia).
  set (den := (2 ^ Z.max (- e) 0)%Z) in *.
  intros (_ & Hn & Hneven) (_ & Hn' & Hn'even).
  assert (Hclose : (n' = n \/ n' = n + 1 \/ n = n' + 1)%Z) by nia.
  destruct Hclose as [-> | [-> | ->]]; [reflexivity | |].
  - assert (Ht : (2 * Z.abs (num - n * den) = den)%Z) by nia.
    assert (Ht' : (2 * Z.abs (num - (n + 1) * den) = den)%Z) by nia.
    specialize (Hneven Ht). specialize (Hn'even Ht').
    rewrite Z.even_add, Hneven in Hn'even. discriminate.
  - assert (Ht : (2 * Z.abs (num - n' * den) = den)%Z) by nia.
    assert (Ht' : (2 * Z.abs (num - (n' + 1) * den) = den)%Z) by nia.
    specialize (Hn'even Ht). specialize (Hneven Ht').
    rewrite Z.even_add, Hn'even in Hneven. discriminate.
Qed.

Lemma rounded_to_hundredths_unique (x r r' : float) :
  rounded_to_hundredths x r -> rounded_to_hundredths x r' -> r = r'.
Proof.
  unfold rounded_to_hundredths.
  destruct (Prim2SF x) as [s | s | | s m e]; try congruence.
  intros (n & Hn & ->) (n' & Hn' & ->).
  now rewrite (nearest_hundredths_unique m e n n' Hn Hn').
Qed.

#[local] Set Warnings "-inexact-float".

Example round_2_values :
  round_2 2.675 = 2.67%float /\ round_2 0.125 = 0.12%float /\ round_2 0.375 = 0.38%float
  /\ round_2 (0.1 * 60) = 6%float /\ round_2 (-0.001) = (-0)%float
  /\ round_2 infinity = infinity.
Proof. vm_compute. repeat split; reflexivity. Qed.

#[local] Set Warnings "+inexact-float".

End Rounding.

(** ** Strings *)

Section StringFacts.

Lemma append_nil_l (s : string) : EmptyString +:+ s = s.
Proof. reflexivity. Qed.

Lemma append_cons (c : ascii) (a b : string) :
  String c a +:+ b = String c (a +:+ b).
Proof. reflexivity. Qed.

Lemma append_empty_r (s : string) : s +:+ EmptyString = s.
Proof.
  induction s as [|c s IH]; [reflexivity |].
  now rewrite append_cons, IH.
Qed.

Lemma append_assoc (a b c : string) : (a +:+ b) +:+ c = a +:+ (b +:+ c).
Proof.
  induction a as [|x a IH]; [reflexivity |].
  now rewrite !append_cons, IH.
Qed.

Lemma string_forall_append p (a b : string) :
  string_forall p (a +:+ b) = string_forall p a && string_forall p b.
Proof.
  induction a as [|x a IH]; [reflexivity |].
  rewrite append_cons. simpl. rewrite IH. now rewrite andb_assoc.
Qed.

Lemma is_token_starts (t : string) :
  is_token t = true ->
  exists c t', t = String c t' /\ is_space c = false /\ no_space t' = true.
Proof.
  destruct t as [|c t']; [discriminate |].
  unfold is_token, no_space. simpl.
  intros [Hc Ht]%andb_prop. exists c, t'. split; [reflexivity |].
  now apply negb_true_iff in Hc.
Qed.

Lemma is_token_no_space (t : string) : is_token t = true -> no_space t = true.
Proof. unfold is_token. now intros [_ Ht]%andb_prop. Qed.

Lemma is_token_nonempty (t : string) : is_token t = true -> str_nonempty t = true.
Proof. unfold is_token. now intros [Ht _]%andb_prop. Qed.

Lemma lstrip_token (t : string) : is_token t = true -> lstrip t = t.
Proof.
  intros (c & t' & -> & Hc & _)%is_token_starts. simpl. now rewrite Hc.
Qed.

Lemma rstrip_no_space (t : string) : no_space t = true -> rstrip t = t.
Proof.
  unfold no_space. induction t as [|c t IH]; simpl; [reflexivity |].
  intros [Hc Ht]%andb_prop. rewrite (IH Ht).
  apply negb_true_iff in Hc. rewrite Hc. now destruct t.
Qed.

Lemma strip_token (t : string) : is_token t = true -> strip t = t.
Proof.
  intros Ht. unfold strip. rewrite (lstrip_token t Ht).
  now apply rstrip_no_space, is_token_no_space.
Qed.

(** [rstrip] leaves alone what precedes a text that it does not erase. *)
Lemma rstrip_append (a x : string) :
  rstrip x <> EmptyString -> rstrip (a +:+ x) = a +:+ rstrip x.
Proof.
  intros Hx. induction a as [|c a IH]; [reflexivity |].
  rewrite !append_cons. simpl. rewrite IH.
  destruct (a +:+ rstrip x) eqn:E; [| reflexivity].
  destruct a; [contradiction | discriminate].
Qed.

End StringFacts.

(** ** Tokens *)

Section Tokens.

(** The scan of [split], started with the token [cur] in hand, cuts the
    text that [cur] and the rest of the input make up. *)
Lemma split_loop_splits (s cur : string) :
  no_space cur = true -> splits (cur +:+ s) (split_loop s cur).
Proof.
  revert cur. induction s as [|c s IH]; intros cur Hcur; simpl.
  - destruct (str_nonempty cur) eqn:Hne.
    + apply splits_token.
      * unfold is_token. now rewrite Hne, Hcur.
      * now left.
      * constructor.
    + destruct cur; [constructor | discriminate].
  - destruct (is_space c) eqn:Hc.
    + destruct (str_nonempty cur) eqn:Hne.
      * apply splits_token.
        -- unfold is_token. now rewrite Hne, Hcur.
        -- right. exact Hc.
        -- apply splits_space; [exact Hc |]. apply (IH EmptyString). reflexivity.
      * destruct cur; [| discriminate]. rewrite append_nil_l.
        apply splits_space; [exact Hc |]. apply (IH EmptyString). reflexivity.
    + replace (cur +:+ String c s) with ((cur +:+ String c EmptyString) +:+ s)
        by (rewrite append_assoc; reflexivity).
      apply IH. unfold no_space in *. rewrite string_forall_append, Hcur. simpl.
      now rewrite Hc.
Qed.

Lemma split_splits (s : string) : splits s (split s).
Proof. apply (split_loop_splits s EmptyString). reflexivity. Qed.

(** A run without white space in front of the input extends the token
    in hand. *)
Lemma split_loop_run (t s cur : string) :
  no_space t = true -> split_loop (t +:+ s) cur = split_loop s (cur +:+ t).
Proof.
  revert cur. unfold no_space. induction t as [|c t IH]; intros cur Ht.
  - now rewrite append_nil_l, append_empty_r.
  - simpl in Ht. apply andb_prop in Ht as [Hc Ht]. apply negb_true_iff in Hc.
    rewrite append_cons. simpl. rewrite Hc, (IH _ Ht), append_assoc. reflexivity.
Qed.

(** The cut of a text is unique: it is the list that [split] returns. *)
Lemma splits_split (s : string) (ts : list string) : splits s ts -> split s = ts.
Proof.
  induction 1 as [| c s ts Hc _ IH | t s ts Ht Hnext _ IH].
  - reflexivity.
  - unfold split in *. simpl. now rewrite Hc.
  - unfold split in *. rewrite (split_loop_run t s EmptyString (is_token_no_space t Ht)).
    rewrite append_nil_l. pose proof (is_token_nonempty t Ht) as Hne.
    destruct s as [|c s]; simpl.
    + rewrite Hne. simpl in IH. now rewrite <- IH.
    + destruct Hnext as [Hnext | Hc]; [discriminate |].
      simpl in Hc, IH. rewrite Hc in *. simpl in IH. now rewrite Hne, IH.
Qed.

Lemma splits_tokens (s : string) (ts : list string) :
  splits s ts -> Forall (fun t => is_token t = true) ts.
Proof. induction 1; auto. Qed.

(** After [split] the two calls of [strip] change nothing. *)
Lemma tokenize_split (text : string) : tokenize text = split text.
Proof.
  unfold tokenize.
  pose proof (splits_tokens _ _ (split_splits text)) as Hall.
  induction Hall as [|t ts Ht _ IH]; simpl; [reflexivity |].
  rewrite (strip_token t Ht), (is_token_nonempty t Ht).
  simpl. now rewrite (strip_token t Ht), IH.
Qed.

(** On a token the regular expression says what the pattern says in
    words: the line feed that [$] tolerates is white space, and a token
    has none. *)
Lemma not_space_not_newline (c : ascii) :
  is_space c = false -> (N_of_ascii c =? 10)%N = false.
Proof.
  unfold is_space. destruct (N.eqb_spec (N_of_ascii c) 10) as [-> | _]; [| reflexivity].
  discriminate.
Qed.

Lemma pattern_id_shape (t : string) :
  no_space t = true -> STUDENT_ID_PATTERN t = id_shape t.
Proof.
  intros Hns.
  destruct t as [|a [|b [|d1 [|d2 [|d3 [|d4 [|d5 [|d6 [|x rest]]]]]]]]];
    unfold STUDENT_ID_PATTERN, id_shape;
    cbn [match_class list_ascii_of_string forallb match_end];
    try (repeat match goal with
                | |- context [is_ascii_letter ?c] => destruct (is_ascii_letter c)
                | |- context [is_decimal_digit ?c] => destruct (is_decimal_digit c)
                end; reflexivity).
  assert (Hx : is_space x = false).
  { unfold no_space in Hns. cbn [string_forall] in Hns.
    do 8 (apply andb_prop in Hns; destruct Hns as [_ Hns]).
    apply andb_prop in Hns. destruct Hns as [Hns _]. now apply negb_true_iff in Hns. }
  destruct (is_ascii_letter a), (is_ascii_letter b), (is_decimal_digit d1),
    (is_decimal_digit d2), (is_decimal_digit d3), (is_decimal_digit d4),
    (is_decimal_digit d5), (is_decimal_digit d6); try reflexivity.
  destruct rest; [apply (not_space_not_newline x Hx) | reflexivity].
Qed.

End Tokens.

(** ** Removing repeated tokens *)

Section Dedupe.

Lemma filter_all_true {A} (p : A -> bool) (l : list A) :
  (forall x, In x l -> p x = true) -> List.filter p l = l.
Proof.
  induction l as [|a l IH]; simpl; intros Hall; [reflexivity |].
  rewrite (Hall a) by now left. f_equal. apply IH. intros x Hx. apply Hall. now right.
Qed.

Lemma filter_and {A} (p q : A -> bool) (l : list A) :
  List.filter p (List.filter q l) = List.filter (fun x => p x && q x) l.
Proof.
  induction l as [|a l IH]; simpl; [reflexivity |].
  destruct (q a); simpl; [destruct (p a); simpl; now rewrite IH |].
  rewrite andb_false_r. exact IH.
Qed.

Lemma filter_swap {A} (p q : A -> bool) (l : list A) :
  List.filter p (List.filter q l) = List.filter q (List.filter p l).
Proof.
  rewrite !filter_and. apply List.filter_ext. intros a. apply andb_comm.
Qed.

Lemma first_occurrences_In (l : list string) (x : string) :
  In x (first_occurrences l) <-> In x l.
Proof.
  induction l as [|a l IH]; simpl; [tauto |].
  rewrite List.filter_In, IH. split.
  - intros [Ha | [Hx _]]; auto.
  - intros [Ha | Hx]; [now left |].
    destruct (String.eqb_spec x a) as [-> | Hne]; [now left | right; now split].
Qed.

Lemma first_occurrences_NoDup (l : list string) : List.NoDup (first_occurrences l).
Proof.
  induction l as [|a l IH]; simpl; constructor.
  - rewrite List.filter_In, String.eqb_refl. simpl. intros [_ Hf]. discriminate.
  - now apply List.NoDup_filter.
Qed.

(** Dropping some tokens before or after the repetitions are removed
    gives the same list. *)
Lemma filter_first_occurrences (p : string -> bool) (l : list string) :
  List.filter p (first_occurrences l) = first_occurrences (List.filter p l).
Proof.
  induction l as [|a l IH]; simpl; [reflexivity |].
  destruct (p a) eqn:Hpa; simpl.
  - f_equal. now rewrite filter_swap, IH.
  - rewrite filter_swap, IH. apply filter_all_true.
    intros x Hx. apply (proj1 (first_occurrences_In _ _)) in Hx.
    apply List.filter_In in Hx.
    destruct Hx as [_ Hpx].
    destruct (String.eqb_spec x a) as [-> | _]; [congruence | reflexivity].
Qed.

(** The loop of [dedupe_tokens]: [ordered] grows by the tokens not yet in
    [seen], each at its first occurrence. *)
Lemma dedupe_loop_spec (l : list string) (seen : gset string) (ordered : list string) :
  dedupe_loop l seen ordered =
  ordered ++ first_occurrences (List.filter (fun y => negb (bool_decide (y ∈ seen))) l).
Proof.
  revert seen ordered. induction l as [|x l IH]; intros seen ordered; simpl.
  - now rewrite app_nil_r.
  - destruct (decide (x ∈ seen)) as [Hin | Hnotin].
    + rewrite (bool_decide_eq_true_2 _ Hin). simpl. apply IH.
    + rewrite (bool_decide_eq_false_2 _ Hnotin). simpl.
      rewrite IH, <- app_assoc. simpl. do 2 f_equal.
      rewrite filter_first_occurrences, filter_and.
      f_equal. apply List.filter_ext. intros y.
      destruct (String.eqb_spec y x) as [-> | Hne]; simpl.
      * apply negb_false_iff, bool_decide_eq_true_2.
        apply elem_of_union_l, elem_of_singleton. reflexivity.
      * f_equal. apply bool_decide_ext.
        rewrite elem_of_union, elem_of_singleton. tauto.
Qed.

Lemma dedupe_tokens_first_occurrences (l : list string) :
  dedupe_tokens l = first_occurrences l.
Proof.
  unfold dedupe_tokens. rewrite dedupe_loop_spec. simpl. f_equal.
  apply filter_all_true. intros y _.
  apply negb_true_iff, bool_decide_eq_false_2. apply not_elem_of_empty.
Qed.

End Dedupe.

(** ** The name joined from tokens *)

Section JoinedName.

Lemma join_cons2 (sep t t' : string) (ts : list string) :
  join sep (t :: t' :: ts) = t +:+ sep +:+ join sep (t' :: ts).
Proof. reflexivity. Qed.

(** Tokens joined by single spaces begin and end with a character of a
    token, so [strip] has nothing to remove. *)
Lemma join_tokens_trimmed (t : string) (ts : list string) :
  Forall (fun t => is_token t = true) (t :: ts) ->
  let s := join " " (t :: ts) in
  lstrip s = s /\ rstrip s = s /\ s <> EmptyString.
Proof.
  revert t. induction ts as [|t' ts IH]; intros t Hall; inversion Hall as [|? ? Ht Hts]; subst.
  - cbn. split; [now apply lstrip_token |]. split.
    + now apply rstrip_no_space, is_token_no_space.
    + intros ->. discriminate.
  - cbv zeta. rewrite join_cons2.
    destruct (IH t' Hts) as (_ & Hr & Hne). cbv zeta in Hr, Hne.
    destruct (is_token_starts t Ht) as (c & t0 & -> & Hc & _).
    split; [| split].
    + rewrite append_cons. simpl. now rewrite Hc.
    + assert (Hsp : rstrip (" " +:+ join " " (t' :: ts)) = " " +:+ join " " (t' :: ts)).
      { rewrite rstrip_append; rewrite Hr; [reflexivity | exact Hne]. }
      rewrite rstrip_append; rewrite Hsp; [reflexivity | discriminate].
    + rewrite append_cons. discriminate.
Qed.

Lemma strip_join_tokens (ts : list string) :
  Forall (fun t => is_token t = true) ts -> strip (join " " ts) = join " " ts.
Proof.
  destruct ts as [|t ts]; [reflexivity |]. intros Hall.
  destruct (join_tokens_trimmed t ts Hall) as (Hl & Hr & _). cbv zeta in Hl, Hr.
  unfold strip. now rewrite Hl, Hr.
Qed.

End JoinedName.

(** ** The scan for the identifier *)

Section Scan.

Lemma take_length_app {A} (pre rest : list A) : take (length pre) (pre ++ rest) = pre.
Proof. induction pre as [|a pre IH]; simpl; [now destruct rest | now rewrite IH]. Qed.

Lemma drop_length_app {A} (pre rest : list A) : drop (length pre) (pre ++ rest) = rest.
Proof. induction pre as [|a pre IH]; simpl; [reflexivity | exact IH]. Qed.

Lemma scan_tokens_found (tokens pre left right : list string) (id : string) :
  tokens = pre ++ left ++ id :: right ->
  Forall (fun t => STUDENT_ID_PATTERN t = false) left ->
  STUDENT_ID_PATTERN id = true ->
  scan_tokens tokens (length pre) (left ++ id :: right) =
  (id, strip (join " " (dedupe_tokens (longer_side (pre ++ left) right)))).
Proof.
  revert pre. induction left as [|t left IH]; intros pre Htok Hleft Hid.
  - simpl in *. rewrite Hid, app_nil_r. subst tokens.
    rewrite take_length_app.
    replace (drop (length pre + 1) (pre ++ id :: right)) with right.
    2:{ replace (length pre + 1) with (length (pre ++ [id])) by (rewrite length_app; reflexivity).
        replace (pre ++ id :: right) with ((pre ++ [id]) ++ right)
          by (rewrite <- app_assoc; reflexivity).
        now rewrite drop_length_app. }
    unfold longer_side. destruct (length pre <? length right)%nat; [reflexivity |].
    now destruct (length right =? length pre)%nat.
  - pose proof (Forall_inv Hleft) as Ht. pose proof (Forall_inv_tail Hleft) as Hleft'.
    simpl in Ht. simpl. rewrite Ht.
    replace (S (length pre)) with (length (pre ++ [t]))
      by (rewrite length_app; simpl; lia).
    rewrite (IH (pre ++ [t])); try assumption.
    + now rewrite <- app_assoc.
    + rewrite Htok. now rewrite <- app_assoc.
Qed.

Lemma scan_tokens_none (tokens rest : list string) (index : nat) :
  Forall (fun t => STUDENT_ID_PATTERN t = false) rest ->
  scan_tokens tokens index rest = (EmptyString, EmptyString).
Proof.
  revert index. induction rest as [|t rest IH]; intros index Hall; [reflexivity |].
  inversion Hall as [|? ? Ht Hrest]; subst. simpl. rewrite Ht. now apply IH.
Qed.

Lemma Forall_pattern_shape (ts : list string) (b : bool) :
  Forall (fun t => is_token t = true) ts ->
  Forall (fun t => id_shape t = b) ts ->
  Forall (fun t => STUDENT_ID_PATTERN t = b) ts.
Proof.
  induction 1 as [|t ts Ht _ IH]; intros Hshape; constructor.
  - rewrite pattern_id_shape; [| now apply is_token_no_space].
    exact (Forall_inv Hshape).
  - exact (IH (Forall_inv_tail Hshape)).
Qed.

End Scan.

(** ** FieldExtractor: the contract of [extract_student_fields] *)

Section FieldExtractor.
Context `{Builtins}.

(** C1. For every description text: its tokens are the one cut of the text
    at white space, all non-empty and free of white space; when a token has
    the shape of an identifier (two letters, then six digits), the first
    such token is the identifier returned, and the name returned is the
    side of it with more tokens (the left one on a tie) without repeated
    tokens, each kept at its first occurrence, joined by single spaces;
    when no token has that shape both results are empty. *)
Theorem extract_student_fields_contract (description : string) :
  let tokens := tokenize description in
  (forall ts, splits description ts <-> ts = tokens) /\
  Forall (fun t => is_token t = true) tokens /\
  (forall left id right,
      tokens = left ++ id :: right ->
      Forall (fun t => id_shape t = false) left ->
      id_shape id = true ->
      extract_student_fields (Scalar (CStr description)) =
      (id, join " " (first_occurrences (longer_side left right)))) /\
  (Forall (fun t => id_shape t = false) tokens ->
   extract_student_fields (Scalar (CStr description)) = (EmptyString, EmptyString)).
Proof.
  cbv zeta. rewrite tokenize_split.
  pose proof (split_splits description) as Hsplits.
  pose proof (splits_tokens _ _ Hsplits) as Htokens.
  split.
  { intros ts. split; [intros Hts; symmetry; now apply splits_split | now intros ->]. }
  split; [exact Htokens |].
  unfold extract_student_fields, extract_from_text. simpl obj_str.
  rewrite tokenize_split. split.
  - intros left id right Heq Hleft Hid.
    rewrite Heq in Htokens.
    apply Forall_app in Htokens. destruct Htokens as [Hl Hr].
    inversion Hr as [|? ? Hidtok Hright]; subst.
    assert (Hscan : scan_tokens (split description) 0 (split description) =
                    (id, strip (join " " (dedupe_tokens (longer_side left right))))).
    { pose proof (scan_tokens_found (split description) [] left right id Heq) as Hs.
      simpl in Hs. rewrite <- Heq in Hs. apply Hs.
      - now apply Forall_pattern_shape.
      - rewrite pattern_id_shape; [exact Hid | now apply is_token_no_space]. }
    rewrite Hscan, dedupe_tokens_first_occurrences. f_equal.
    apply strip_join_tokens.
    apply List.Forall_forall. intros t Ht.
    apply (proj1 (first_occurrences_In _ _)) in Ht.
    unfold longer_side in Ht.
    destruct (length left <? length right)%nat;
      [apply (proj1 (List.Forall_forall _ _) Hright) | apply (proj1 (List.Forall_forall _ _) Hl)];
      exact Ht.
  - intros Hnone. apply scan_tokens_none. now apply Forall_pattern_shape.
Qed.

End FieldExtractor.

Lemma extract_student_fields_contract_witness :
  @extract_student_fields sample_builtins (Scalar (CStr "Jane AB123456 Doe Doe Smith")) =
  ("AB123456", "Doe Smith")%string.
Proof.
  apply (proj1 (proj2 (proj2
    (@extract_student_fields_contract sample_builtins "Jane AB123456 Doe Doe Smith")))
    ["Jane"%string] "AB123456"%string ["Doe"; "Doe"; "Smith"]%string).
  - reflexivity.
  - repeat constructor.
  - reflexivity.
Defined.

(** ** SourceLoader *)

Section SourceLoader.

Lemma messages_differ (missing : list string) :
  insufficient_rows_message <> missing_columns_message missing.
Proof. unfold insufficient_rows_message, missing_columns_message. discriminate. Qed.

Lemma absent_columns_In (header : list cell) (name : string) :
  In name (absent_columns header) <->
  In name EXPECTED_SOURCE_COLUMNS /\ label_in name header = false.
Proof.
  unfold absent_columns. rewrite List.filter_In, negb_true_iff. reflexivity.
Qed.

(** The three outcomes of the loader on a table of at least three rows
    and on a shorter one. *)
Lemma load_short (raw : list (list cell)) :
  length raw < 3 -> load_source_dataframe raw = Raise InsufficientRowsError.
Proof.
  intros Hlen. unfold load_source_dataframe.
  destruct (Nat.ltb_spec (length raw) 3); [reflexivity | lia].
Qed.

Lemma load_long (raw : list (list cell)) :
  3 <= length raw ->
  load_source_dataframe raw =
  match absent_columns (nth 1 raw []) with
  | _ :: _ => Raise (MissingColumnsError (absent_columns (nth 1 raw [])))
  | [] => Ok (select_columns EXPECTED_SOURCE_COLUMNS
                {| columns := nth 1 raw []; rows := dropna_all (drop 2 raw) |})
  end.
Proof.
  intros Hlen. unfold load_source_dataframe.
  destruct (Nat.ltb_spec (length raw) 3); [lia | reflexivity].
Qed.

(** C3, as the loader has it.  The loader fails with InsufficientRowsError
    exactly when the table has fewer than 3 rows.  On a table of at least
    3 rows it fails with MissingColumnsError exactly when a required label
    is absent from the header row (row 1), and the error then names the
    absent labels, all of them and no other; when no label is absent it
    returns a frame. *)
Theorem load_source_dataframe_failures (raw : list (list cell)) :
  let header := nth 1 raw [] in
  (load_source_dataframe raw = Raise InsufficientRowsError <-> length raw < 3) /\
  (3 <= length raw ->
   (is_missing_columns_error (load_source_dataframe raw) <-> absent_columns header <> []) /\
   (absent_columns header <> [] ->
    load_source_dataframe raw = Raise (MissingColumnsError (absent_columns header))) /\
   (absent_columns header = [] -> exists df, load_source_dataframe raw = Ok df)) /\
  (forall name, In name (absent_columns header) <->
                In name EXPECTED_SOURCE_COLUMNS /\ label_in name header = false).
Proof.
  cbv zeta. split; [| split].
  - split; [| apply load_short].
    intros Hraise. destruct (Nat.lt_ge_cases (length raw) 3) as [Hlt | Hge]; [exact Hlt |].
    rewrite (load_long raw Hge) in Hraise.
    destruct (absent_columns (nth 1 raw [])) as [|name rest]; [discriminate |].
    exfalso. apply (messages_differ (name :: rest)).
    unfold InsufficientRowsError, MissingColumnsError in Hraise. congruence.
  - intros Hge. rewrite (load_long raw Hge).
    destruct (absent_columns (nth 1 raw [])) as [|name rest] eqn:Habs.
    + split; [| split].
      * split; [intros [missing Hm]; discriminate | intros Hne; now contradiction Hne].
      * intros Hne. now contradiction Hne.
      * intros _. eexists. reflexivity.
    + split; [| split].
      * split; [discriminate | intros _; now exists (name :: rest)].
      * reflexivity.
      * discriminate.
  - intros name. apply absent_columns_In.
Qed.

Lemma load_source_dataframe_failures_witness :
  load_source_dataframe
    [ [CStr "Report"]; [CStr "Date"; CStr "TherapistName"]; [CStr "03/05/2024"; CStr "Ann"] ]
  = Raise (MissingColumnsError
      ["ActivityDescription"; "PlacementDesc"; "RateName"; "EntryQuantity";
       "ChargeRate"; "TotalCharge"]%string).
Proof.
  apply (proj1 (proj2 (proj1 (proj2 (load_source_dataframe_failures
    [ [CStr "Report"]; [CStr "Date"; CStr "TherapistName"];
      [CStr "03/05/2024"; CStr "Ann"] ])) ltac:(simpl; lia)))).
  discriminate.
Defined.

(** C3 as it is worded fails on a table of two rows whose header lacks
    required labels: the row count is tested first, and the failure is
    InsufficientRowsError. *)
Lemma load_two_rows_counterexample :
  let raw := [ [CStr "Report"]; [CStr "Date"; CStr "TherapistName"] ] in
  absent_columns (nth 1 raw []) <> [] /\
  ~ is_missing_columns_error (load_source_dataframe raw).
Proof.
  split; [discriminate |].
  intros [missing Hm]. apply (messages_differ missing).
  unfold MissingColumnsError in Hm. cbn in Hm. congruence.
Qed.

(** *** The frame returned on success *)

Lemma label_is_eq (name : string) (label : cell) :
  label_is name label = true -> label = CStr name.
Proof.
  destruct label; try discriminate. simpl.
  now intros ->%String.eqb_eq.
Qed.

Lemma filter_label_repeat (name : string) (index : list cell) :
  List.filter (label_is name) index = repeat (CStr name) (label_count name index).
Proof.
  unfold label_count. induction index as [|label rest IH]; simpl; [reflexivity |].
  destruct (label_is name label) eqn:Hl; [| exact IH].
  simpl. rewrite (label_is_eq _ _ Hl). f_equal. exact IH.
Qed.

Lemma cells_at_cons (name : string) (label c : cell) (index row : list cell) :
  cells_at name (label :: index) (c :: row) =
  if label_is name label then c :: cells_at name index row else cells_at name index row.
Proof. unfold cells_at. simpl. now destruct (label_is name label). Qed.

Lemma cells_at_length (name : string) (index row : list cell) :
  length (cells_at name index row) <= label_count name index.
Proof.
  revert row. induction index as [|label rest IH]; intros row; [simpl; lia |].
  destruct row as [|c row]; [unfold cells_at; simpl; lia |].
  rewrite cells_at_cons. unfold label_count in *. simpl.
  destruct (label_is name label); simpl; specialize (IH row); lia.
Qed.

(** Under a label that one column carries, a row has one cell. *)
Lemma cells_at_unique (name : string) (index row : list cell) :
  label_count name index = 1 -> length row = length index ->
  cells_at name index row = [cell_under name index row].
Proof.
  revert row. induction index as [|label rest IH]; intros row Hcount Hlen.
  - discriminate.
  - destruct row as [|c row]; [discriminate |].
    rewrite cells_at_cons. unfold cell_under, label_count in *. simpl in *.
    destruct (label_is name label); simpl in *.
    + f_equal. pose proof (cells_at_length name rest row) as Hle.
      unfold label_count in Hle.
      destruct (cells_at name rest row); [reflexivity | simpl in Hle; lia].
    + apply IH; lia.
Qed.

Lemma label_in_count (name : string) (index : list cell) :
  label_in name index = true <-> 1 <= label_count name index.
Proof.
  unfold label_in, label_count. induction index as [|label rest IH]; simpl.
  - split; [discriminate | lia].
  - destruct (label_is name label); simpl; [split; [lia | reflexivity] | exact IH].
Qed.

Lemma flat_map_singletons {A B} (f : A -> list B) (g : A -> B) (l : list A) :
  (forall x, In x l -> f x = [g x]) -> flat_map f l = List.map g l.
Proof.
  induction l as [|a l IH]; intros Hf; simpl; [reflexivity |].
  rewrite (Hf a) by now left. simpl. f_equal. apply IH. intros x Hx. apply Hf. now right.
Qed.

Lemma drop_Forall {A} (P : A -> Prop) (n : nat) (l : list A) :
  Forall P l -> Forall P (drop n l).
Proof.
  revert n. induction l as [|a l IH]; intros n Hall; destruct n; simpl; auto.
  apply IH. exact (Forall_inv_tail Hall).
Qed.

Lemma map_ext_Forall {A B} (f g : A -> B) (l : list A) :
  Forall (fun x => f x = g x) l -> List.map f l = List.map g l.
Proof. induction 1 as [|a l Ha _ IH]; simpl; [reflexivity | now rewrite Ha, IH]. Qed.

Lemma filter_Forall {A} (P : A -> Prop) (p : A -> bool) (l : list A) :
  Forall P l -> Forall P (List.filter p l).
Proof.
  induction 1 as [|a l Ha _ IH]; simpl; [constructor |].
  destruct (p a); [constructor |]; assumption.
Qed.

(** C7, as the loader has it.  On success, for a rectangular table whose
    header row carries no required label twice, the frame returned has
    exactly the eight required columns in the canonical order, and its
    rows are the rows of the data body (row 2 onward) that are not empty,
    in their order, each cut down to its cells under the eight labels. *)
Theorem load_source_dataframe_success (raw : list (list cell)) (df : DataFrame) :
  let header := nth 1 raw [] in
  load_source_dataframe raw = Ok df ->
  rectangular (length header) raw ->
  (forall name, In name EXPECTED_SOURCE_COLUMNS -> label_count name header <= 1) ->
  columns df = List.map CStr EXPECTED_SOURCE_COLUMNS /\
  rows df =
    List.map (fun row => List.map (fun name => cell_under name header row) EXPECTED_SOURCE_COLUMNS)
      (List.filter (fun row => negb (empty_row row)) (drop 2 raw)).
Proof.
  cbv zeta. intros Hload Hrect Honce.
  destruct (Nat.lt_ge_cases (length raw) 3) as [Hlt | Hge].
  { rewrite (load_short raw Hlt) in Hload. discriminate. }
  rewrite (load_long raw Hge) in Hload.
  destruct (absent_columns (nth 1 raw [])) as [|? ?] eqn:Habs; [| discriminate].
  injection Hload as <-.
  assert (Hcount : forall name, In name EXPECTED_SOURCE_COLUMNS ->
                                label_count name (nth 1 raw []) = 1).
  { intros name Hin. specialize (Honce name Hin).
    assert (Hpresent : label_in name (nth 1 raw []) = true).
    { destruct (label_in name (nth 1 raw [])) eqn:Hl; [reflexivity |].
      assert (Hmem : In name (absent_columns (nth 1 raw [])))
        by (apply absent_columns_In; now split).
      rewrite Habs in Hmem. destruct Hmem. }
    apply label_in_count in Hpresent. lia. }
  unfold select_columns. cbn [columns rows]. split.
  - apply flat_map_singletons. intros name Hin.
    now rewrite filter_label_repeat, (Hcount name Hin).
  - unfold dropna_all, empty_row. apply map_ext_Forall.
    apply filter_Forall. apply drop_Forall.
    eapply Forall_impl; [exact Hrect |]. cbn beta. intros row Hlen.
    apply flat_map_singletons. intros name Hin.
    apply cells_at_unique; [now apply Hcount | exact Hlen].
Qed.

Lemma load_source_dataframe_success_witness :
  exists df,
    load_source_dataframe sample_raw = Ok df /\
    columns df = List.map CStr EXPECTED_SOURCE_COLUMNS /\
    rows df =
      [ [ CStr "Jane AB123456 Doe Smith"; CStr "Ann Lee "; CDate march_5_2024;
          CStr "Speech"; CStr "Hourly"; CFloat 1.5; CInt 50; CInt 75 ];
        [ NaN; NaN; NaN; NaN; NaN; NaN; NaN; NaN ];
        [ CStr "Math Tutoring CD654321 Sam Roe"; NaN; CStr " 03/06/2024"; CStr "OT";
          CStr "Hourly"; CInt 2; CStr "n/a"; CStr "n/a" ] ].
Proof.
  eexists. split; [reflexivity |].
  apply (load_source_dataframe_success sample_raw _ eq_refl).
  - repeat constructor.
  - intros name Hin. simpl in Hin.
    repeat (destruct Hin as [<- | Hin]; [vm_compute; lia |]). destruct Hin.
Defined.

(** C7 as it is worded fails on a header row that repeats a required
    label: pandas keeps both columns labelled [Date], and the frame
    returned has nine columns. *)
Lemma load_repeated_label_counterexample :
  exists df,
    load_source_dataframe repeated_label_raw = Ok df /\
    length (columns df) = 9 /\
    columns df <> List.map CStr EXPECTED_SOURCE_COLUMNS.
Proof.
  eexists. split; [reflexivity |]. split; [reflexivity | discriminate].
Qed.

End SourceLoader.

(** ** RecordTransformer *)

Section RecordTransformer.
Context `{Builtins}.

Lemma bind_Ok {A B} (r : result A) (k : A -> result B) (b : B) :
  bind r k = Ok b -> exists a, r = Ok a /\ k a = Ok b.
Proof. destruct r as [a | e]; simpl; [eauto | discriminate]. Qed.

(** What a record that was built holds, field by field. *)
Lemma build_record_fields (index row : list cell) (rec : TargetRecord) :
  build_record index row = Ok rec ->
  (StudentId rec, StudentName rec) =
    extract_student_fields (row_get index row "ActivityDescription") /\
  clean_text (row_get index row "TherapistName") = Ok (TherapistName rec) /\
  (exists has_date, obj_notna (row_get index row "Date") = Ok has_date /\
     DateOfService rec =
       if has_date then
         match row_get index row "Date" with
         | Scalar (CDate d) => strftime_mdY d
         | o => strip (obj_str o)
         end
       else EmptyString) /\
  clean_text (row_get index row "PlacementDesc") = Ok (Service rec) /\
  (exists has_quantity, obj_notna (row_get index row "EntryQuantity") = Ok has_quantity /\
     if has_quantity
     then exists hours, obj_float (row_get index row "EntryQuantity") = Ok hours /\
                        MinutesOnIEP rec = VFloat (round_2 (hours * 60))
     else MinutesOnIEP rec = VStr EmptyString).
Proof.
  unfold build_record.
  destruct (extract_student_fields (row_get index row "ActivityDescription"))
    as [student_id student_name].
  intros Hb.
  apply bind_Ok in Hb as (therapist_name & Ht & Hb).
  apply bind_Ok in Hb as (has_date & Hd & Hb).
  apply bind_Ok in Hb as (service_value & Hs & Hb).
  apply bind_Ok in Hb as (has_quantity & Hq & Hb).
  apply bind_Ok in Hb as (minutes_value & Hm & Hb).
  injection Hb as <-. cbn [StudentId StudentName TherapistName DateOfService Service MinutesOnIEP].
  repeat split; try assumption.
  - exists has_date. split; [assumption |].
    destruct has_date; [| reflexivity].
    destruct (row_get index row "Date") as [[| | | | |d] | vs]; reflexivity.
  - exists has_quantity. split; [assumption |].
    destruct has_quantity.
    + apply bind_Ok in Hm as (hours & Hh & Hm). injection Hm as <-. now exists hours.
    + now injection Hm as <-.
Qed.

(** The loop of [build_target_dataframe] appends one record for each row
    that is not empty, in the order of the rows. *)
Lemma build_loop_records (index : list cell) (body : list (list cell))
    (acc records : list TargetRecord) :
  build_loop index body acc = Ok records ->
  exists new,
    records = acc ++ new /\
    Forall2 (fun row rec => build_record index row = Ok rec)
      (List.filter (fun row => negb (empty_row row)) body) new.
Proof.
  revert acc. induction body as [|row body IH]; intros acc Hloop; simpl in *.
  - injection Hloop as <-. exists []. split; [now rewrite app_nil_r | constructor].
  - unfold empty_row in *. destruct (forallb isna row); simpl.
    + now apply IH.
    + apply bind_Ok in Hloop as (rec & Hrec & Hloop).
      apply IH in Hloop as (new & -> & Hnew).
      exists (rec :: new). split; [now rewrite <- app_assoc | now constructor].
Qed.



Lemma Forall2_weaken {A B} (P Q : A -> B -> Prop) (l : list A) (k : list B) :
  (forall x y, P x y -> Q x y) -> Forall2 P l k -> Forall2 Q l k.
Proof. intros HPQ. induction 1; constructor; auto. Qed.

Lemma build_target_dataframe_records (df : DataFrame) (records : list TargetRecord) :
  build_target_dataframe df = Ok records ->
  Forall2 (fun row rec => build_record (columns df) row = Ok rec)
    (List.filter (fun row => negb (empty_row row)) (rows df)) records.
Proof.
  intros Hb. apply build_loop_records in Hb as (new & -> & Hnew). exact Hnew.
Qed.

#[local] Set Warnings "-inexact-float".


#[local] Set Warnings "+inexact-float".










(** *** Failure and totality *)


Lemma clean_text_scalar (v : cell) :
  clean_text (Scalar v) =
  Ok (if truthy v then strip (py_str v) else EmptyString).
Proof. unfold clean_text. simpl. now destruct (truthy v). Qed.








(** *** The number of records *)

Lemma filter_map_swap {A B} (f : A -> B) (p : B -> bool) (l : list A) :
  List.filter p (List.map f l) = List.map f (List.filter (fun x => p (f x)) l).
Proof.
  induction l as [|a l IH]; simpl; [reflexivity |].
  destruct (p (f a)); simpl; now rewrite IH.
Qed.

Lemma Forall2_map_left {A B C} (f : A -> B) (P : B -> C -> Prop) (l : list A) (k : list C) :
  Forall2 P (List.map f l) k -> Forall2 (fun x y => P (f x) y) l k.
Proof.
  revert k. induction l as [|a l IH]; intros k Hall; inversion Hall; subst; constructor; auto.
Qed.

Lemma Forall2_same_length {A B} (P : A -> B -> Prop) (l : list A) (k : list B) :
  Forall2 P l k -> length l = length k.
Proof. induction 1; simpl; congruence. Qed.

(** C2, as the pipeline has it.  For a source table that the loader
    accepts and from which the transformer returns records, there are as
    many records as there are rows in the data body (row 2 onward) that
    have a cell that is not null under a required label; these rows are
    among the rows that are not empty, and each of them yields one record,
    in the order of the rows. *)
Theorem target_record_count (raw : list (list cell)) (df : DataFrame)
    (records : list TargetRecord) :
  load_source_dataframe raw = Ok df ->
  build_target_dataframe df = Ok records ->
  let header := nth 1 raw [] in
  let kept :=
    List.filter (fun row => negb (empty_row (required_cells header row)))
      (List.filter (fun row => negb (empty_row row)) (drop 2 raw)) in
  length records = length kept /\
  Forall2 (fun row rec => build_record (columns df) (required_cells header row) = Ok rec)
    kept records.
Proof.
  intros Hload Hbuild. cbv zeta.
  destruct (Nat.lt_ge_cases (length raw) 3) as [Hlt | Hge].
  { rewrite (load_short raw Hlt) in Hload. discriminate. }
  rewrite (load_long raw Hge) in Hload.
  destruct (absent_columns (nth 1 raw [])) as [|? ?]; [| discriminate].
  injection Hload as <-.
  apply build_target_dataframe_records in Hbuild.
  unfold select_columns in Hbuild. cbn [columns rows] in Hbuild.
  change (fun row : list cell =>
            flat_map (fun name => cells_at name (nth 1 raw []) row) EXPECTED_SOURCE_COLUMNS)
    with (required_cells (nth 1 raw [])) in Hbuild.
  rewrite filter_map_swap in Hbuild. apply Forall2_map_left in Hbuild.
  split; [symmetry; exact (Forall2_same_length _ _ _ Hbuild) | exact Hbuild].
Qed.

(** C8 at an empty cell: the float NaN is true for [or], so the text of
    the field is [str(nan)] and not the empty text. *)
Theorem empty_therapist_cell_yields_nan :
  truthy NaN = true /\
  clean_text (Scalar NaN) = Ok "nan"%string /\
  exists row rec,
    rows sample_source !! 2 = Some row /\
    row_get (columns sample_source) row "TherapistName" = Scalar NaN /\
    build_record (columns sample_source) row = Ok rec /\
    TherapistName rec = "nan"%string.
Proof.
  split; [reflexivity |]. split; [reflexivity |].
  eexists. eexists. split; [reflexivity |]. split; [reflexivity |].
  split; [vm_compute; reflexivity | reflexivity].
Qed.

End RecordTransformer.






Lemma target_record_count_witness :
  length sample_records = 2 /\
  Forall2
    (fun row rec =>
       @build_record sample_builtins (columns sample_source)
         (required_cells (nth 1 sample_raw []) row) = Ok rec)
    (List.filter (fun row => negb (empty_row (required_cells (nth 1 sample_raw []) row)))
       (List.filter (fun row => negb (empty_row row)) (drop 2 sample_raw)))
    sample_records.
Proof.
  apply (@target_record_count sample_builtins sample_raw sample_source sample_records).
  - reflexivity.
  - vm_compute. reflexivity.
Defined.

(** C2 as it is worded fails on [sample_raw]: three rows of the data body
    are not empty, one of them has a note only, and two records are
    built. *)
Lemma record_count_counterexample :
  load_source_dataframe sample_raw = Ok sample_source /\
  @build_target_dataframe sample_builtins sample_source = Ok sample_records /\
  length sample_records = 2 /\
  length (List.filter (fun row => negb (empty_row row)) (drop 2 sample_raw)) = 3.
Proof. repeat split; vm_compute; reflexivity. Qed.

(** ** TemplateWriter *)

Section TemplateWriter.

Lemma column_letters_NoDup : NoDup column_letters.
Proof. apply (bool_decide_unpack _). vm_compute. exact I. Qed.

Lemma column_letters_inj (i j : nat) (letter : string) :
  column_letters !! i = Some letter -> column_letters !! j = Some letter -> i = j.
Proof. apply NoDup_lookup, column_letters_NoDup. Qed.

(** One write: the value, then the fill. *)
Lemma write_cell_lookup (ws : worksheet) (coord : string * nat) (v : value) :
  let ws1 := <[coord := set_value v (sheet_at ws coord)]> ws in
  let ws2 := <[coord := set_fill NoFill (sheet_at ws1 coord)]> ws1 in
  ws2 !! coord = Some (written v (sheet_at ws coord)) /\
  (forall other, other <> coord -> ws2 !! other = ws !! other).
Proof.
  cbv zeta. split.
  - rewrite lookup_insert_eq. unfold sheet_at at 1. now rewrite lookup_insert_eq.
  - intros other Hne. now rewrite !lookup_insert_ne by congruence.
Qed.

Lemma write_values_total (values : list value) (ws : worksheet) (row_index col_idx : nat) :
  col_idx + length values <= length column_letters ->
  exists ws', write_values ws row_index col_idx values = Ok ws'.
Proof.
  change (length column_letters) with 6.
  revert ws col_idx. induction values as [|v rest IH]; intros ws col_idx Hlen; simpl.
  - now exists ws.
  - simpl in Hlen.
    destruct (lookup_lt_is_Some_2 column_letters col_idx) as [letter ->];
      [change (length column_letters) with 6; lia |].
    apply IH. lia.
Qed.

(** The inner loop writes the values of one row from column [col_idx] on
    and leaves every other cell as it was. *)
Lemma write_values_cells (values : list value) (ws ws' : worksheet)
    (row_index col_idx : nat) :
  write_values ws row_index col_idx values = Ok ws' ->
  (forall coord,
      (forall j letter, j < length values ->
                        column_letters !! (col_idx + j) = Some letter ->
                        coord <> (letter, row_index)) ->
      ws' !! coord = ws !! coord) /\
  (forall j v letter,
      values !! j = Some v -> column_letters !! (col_idx + j) = Some letter ->
      ws' !! (letter, row_index) = Some (written v (sheet_at ws (letter, row_index)))).
Proof.
  revert ws col_idx. induction values as [|v rest IH]; intros ws col_idx Hwrite; simpl in Hwrite.
  - injection Hwrite as <-. split; [reflexivity | intros j v letter Hj; discriminate].
  - destruct (column_letters !! col_idx) as [letter0 |] eqn:Hletter0; [| discriminate].
    destruct (write_cell_lookup ws (letter0, row_index) v) as [Hhere Hother].
    cbv zeta in Hhere, Hother.
    apply IH in Hwrite as [Hframe Hcells]. split.
    + intros coord Hcoord. rewrite Hframe.
      * apply Hother. apply (Hcoord 0 letter0); [simpl; lia | now rewrite Nat.add_0_r].
      * intros j letter Hj Hl. apply (Hcoord (S j) letter); [simpl; lia |].
        now rewrite Nat.add_succ_r.
    + intros j w letter Hj Hl. destruct j as [|j]; simpl in Hj.
      * injection Hj as <-. rewrite Nat.add_0_r, Hletter0 in Hl. injection Hl as <-.
        rewrite Hframe; [exact Hhere |].
        intros j letter _ Hl Heq. injection Heq as Heq. subst letter.
        pose proof (column_letters_inj _ _ _ Hletter0 Hl). lia.
      * rewrite Nat.add_succ_r in Hl.
        rewrite (Hcells j w letter Hj Hl). do 2 f_equal. unfold sheet_at.
        rewrite Hother; [reflexivity |].
        intros Heq. injection Heq as Heq. subst letter.
        pose proof (column_letters_inj _ _ _ Hletter0 Hl). lia.
Qed.

Lemma write_values_frame (values : list value) (ws ws' : worksheet)
    (row_index col_idx : nat) (letter : string) (r : nat) :
  write_values ws row_index col_idx values = Ok ws' ->
  letter ∉ column_letters \/ r <> row_index ->
  ws' !! (letter, r) = ws !! (letter, r).
Proof.
  intros Hwrite Hout. apply (write_values_cells _ _ _ _ _ Hwrite).
  intros j l _ Hl Heq. injection Heq as -> ->.
  destruct Hout as [Hnot | Hne]; [| congruence].
  apply Hnot. apply list_elem_of_lookup. eauto.
Qed.

Lemma record_values_length (record : TargetRecord) :
  length (record_values record) = length column_letters.
Proof. reflexivity. Qed.

Lemma write_rows_total (records : list TargetRecord) (ws : worksheet) (row_index : nat) :
  exists ws', write_rows ws row_index records = Ok ws'.
Proof.
  revert ws row_index.
  induction records as [|record rest IH]; intros ws row_index; cbn [write_rows].
  - now exists ws.
  - destruct (write_values_total (record_values record) ws row_index 0) as [ws1 ->].
    + now rewrite record_values_length.
    + simpl. apply IH.
Qed.

(** The outer loop writes record [i] of the list into row [row_index + i]
    and leaves the other rows and the other columns as they were. *)
Lemma write_rows_cells (records : list TargetRecord) (ws ws' : worksheet) (row_index : nat) :
  write_rows ws row_index records = Ok ws' ->
  (forall letter r,
      letter ∉ column_letters \/ r < row_index \/ row_index + length records <= r ->
      ws' !! (letter, r) = ws !! (letter, r)) /\
  (forall i record j v letter,
      records !! i = Some record -> record_values record !! j = Some v ->
      column_letters !! j = Some letter ->
      ws' !! (letter, row_index + i) =
      Some (written v (sheet_at ws (letter, row_index + i)))).
Proof.
  revert ws row_index. induction records as [|record rest IH]; intros ws row_index Hwrite;
    cbn [write_rows] in Hwrite.
  - injection Hwrite as <-. split; [reflexivity | intros i record j v letter Hi; discriminate].
  - apply bind_Ok in Hwrite as (ws1 & Hvalues & Hrows).
    apply IH in Hrows as [Hframe Hcells]. split.
    + intros letter r Hout. rewrite Hframe.
      * apply (write_values_frame _ _ _ _ _ _ _ Hvalues).
        destruct Hout as [Hnot | Hr]; [now left | right; simpl in Hr; lia].
      * destruct Hout as [Hnot | Hr]; [now left | right; simpl in Hr; lia].
    + intros i rec j v letter Hi Hj Hl. destruct i as [|i]; simpl in Hi.
      * injection Hi as <-. rewrite Nat.add_0_r.
        rewrite Hframe by (right; left; lia).
        exact (proj2 (write_values_cells _ _ _ _ _ Hvalues) j v letter Hj Hl).
      * rewrite Nat.add_succ_r. change (S (row_index + i)) with (S row_index + i).
        rewrite (Hcells i rec j v letter Hi Hj Hl). do 2 f_equal. unfold sheet_at.
        rewrite (write_values_frame _ _ _ _ _ letter (S row_index + i) Hvalues);
          [reflexivity | right; lia].
Qed.

(** C6. For every list of target records and every template sheet the
    writer returns a sheet in which, for every [i], record [i] is in row
    [7 + i]: its six fields, in the order in which the record declares
    them, are the values of the cells in columns A to F of that row, and
    each of these cells has no fill and the rest of the style that it had
    in the template; all cells in other rows or other columns are as in
    the template. *)
Theorem write_to_template_cells (df_target : list TargetRecord) (template : worksheet) :
  exists sheet,
    write_to_template df_target template = Ok sheet /\
    (forall i record,
        df_target !! i = Some record ->
        let at_column letter v :=
          sheet !! (letter, 7 + i) = Some (written v (sheet_at template (letter, 7 + i))) in
        at_column "A"%string (VStr (TherapistName record)) /\
        at_column "B"%string (VStr (DateOfService record)) /\
        at_column "C"%string (VStr (StudentId record)) /\
        at_column "D"%string (VStr (StudentName record)) /\
        at_column "E"%string (VStr (Service record)) /\
        at_column "F"%string (MinutesOnIEP record)) /\
    (forall letter r,
        letter ∉ column_letters \/ r < 7 \/ 7 + length df_target <= r ->
        sheet !! (letter, r) = template !! (letter, r)).
Proof.
  unfold write_to_template, start_row.
  destruct (write_rows_total df_target template 7) as [sheet Hwrite].
  exists sheet. split; [exact Hwrite |].
  apply write_rows_cells in Hwrite as [Hframe Hcells].
  split; [| exact Hframe].
  intros i record Hi. cbv zeta.
  repeat split;
    [ apply (Hcells i record 0) | apply (Hcells i record 1) | apply (Hcells i record 2)
    | apply (Hcells i record 3) | apply (Hcells i record 4) | apply (Hcells i record 5) ];
    solve [exact Hi | reflexivity].
Qed.

End TemplateWriter.

Lemma write_to_template_cells_witness :
  exists sheet,
    write_to_template sample_records sample_template = Ok sheet /\
    sheet !! ("C"%string, 7) = Some (mk_sheet_cell (Some (VStr "AB123456")) NoFill "border") /\
    sheet !! ("F"%string, 8) = Some (mk_sheet_cell (Some (VFloat 120)) NoFill "") /\
    sheet !! ("A"%string, 1) = sample_template !! ("A"%string, 1).
Proof.
  destruct (write_to_template_cells sample_records sample_template)
    as (sheet & Hwrite & Hcells & Hframe).
  exists sheet. split; [exact Hwrite |].
  split; [| split].
  - exact (proj1 (proj2 (proj2 (Hcells 0 _ eq_refl)))).
  - exact (proj2 (proj2 (proj2 (proj2 (proj2 (Hcells 1 _ eq_refl)))))).
  - apply Hframe. right. left. lia.
Defined.

(** ** The whole conversion on the sample table *)

Example convert_sample :
  match @convert_timesheet sample_builtins sample_raw sample_template with
  | Ok sheet =>
      List.map (fun letter => cell_value (sheet_at sheet (letter, 7))) column_letters =
      List.map Some
        [ VStr "Ann Lee"; VStr "03/05/2024"; VStr "AB123456"; VStr "Doe Smith";
          VStr "Speech"; VFloat 90 ]
      /\ cell_fill (sheet_at sheet ("C"%string, 7)) = NoFill
      /\ sheet !! ("A"%string, 9) = None
  | Raise _ => False
  end.
Proof. vm_compute. repeat split; reflexivity. Qed.

Example convert_short_table :
  @convert_timesheet sample_builtins [ [CStr "Report"]; [CStr "Date"] ] sample_template =
  Raise InsufficientRowsError.
Proof. reflexivity. Qed.

(* ===================================================================== *)
(** * Part III. Further properties of the code                            *)
(* ===================================================================== *)

(** ** [dedupe_tokens] *)

Section DedupeLaws.

Lemma first_occurrences_fixed (l : list string) :
  List.NoDup l -> first_occurrences l = l.
Proof.
  induction 1 as [|x l Hx _ IH]; simpl; [reflexivity |].
  rewrite IH. f_equal. apply filter_all_true. intros y Hy.
  destruct (String.eqb_spec y x) as [-> | _]; [contradiction | reflexivity].
Qed.

Lemma filter_sublist {A} (p : A -> bool) (l : list A) : List.filter p l `sublist_of` l.
Proof.
  induction l as [|a l IH]; simpl; [constructor |].
  destruct (p a); [now apply sublist_skip | now apply sublist_cons].
Qed.

Lemma first_occurrences_sublist (l : list string) : first_occurrences l `sublist_of` l.
Proof.
  induction l as [|x l IH]; simpl; [constructor |].
  apply sublist_skip. etransitivity; [apply filter_sublist | exact IH].
Qed.

Lemma first_occurrences_app (l1 l2 : list string) :
  first_occurrences (l1 ++ l2) =
  first_occurrences l1 ++
  List.filter (fun t => negb (existsb (String.eqb t) l1)) (first_occurrences l2).
Proof.
  induction l1 as [|x l1 IH]; simpl.
  - symmetry. now apply filter_all_true.
  - f_equal. rewrite IH, List.filter_app, filter_and. f_equal.
    apply List.filter_ext. intros t. now rewrite negb_orb.
Qed.

(** X1. [dedupe_tokens] returns a list without repetition that has the
    same members as its argument. *)
Theorem dedupe_tokens_members (tokens : list string) :
  List.NoDup (dedupe_tokens tokens) /\
  (forall t, In t (dedupe_tokens tokens) <-> In t tokens).
Proof.
  rewrite dedupe_tokens_first_occurrences. split.
  - apply first_occurrences_NoDup.
  - intros t. apply first_occurrences_In.
Qed.

(** X2. [dedupe_tokens] changes nothing the second time, and the lists it
    leaves as they are are the lists without repetition. *)
Theorem dedupe_tokens_idempotent (tokens : list string) :
  dedupe_tokens (dedupe_tokens tokens) = dedupe_tokens tokens /\
  (dedupe_tokens tokens = tokens <-> List.NoDup tokens).
Proof.
  rewrite !dedupe_tokens_first_occurrences. split.
  - apply first_occurrences_fixed, first_occurrences_NoDup.
  - split; [| apply first_occurrences_fixed].
    intros Heq. rewrite <- Heq. apply first_occurrences_NoDup.
Qed.

(** X3. [dedupe_tokens] keeps the order of the tokens (its result is a
    subsequence of its argument, so it is not longer), and on two lists
    put end to end it returns the result for the first, followed by the
    result for the second without the tokens of the first. *)
Theorem dedupe_tokens_order (l1 l2 : list string) :
  dedupe_tokens l1 `sublist_of` l1 /\
  length (dedupe_tokens l1) <= length l1 /\
  dedupe_tokens (l1 ++ l2) =
  dedupe_tokens l1 ++
  List.filter (fun t => negb (existsb (String.eqb t) l1)) (dedupe_tokens l2).
Proof.
  rewrite !dedupe_tokens_first_occurrences. split; [| split].
  - apply first_occurrences_sublist.
  - apply sublist_length, first_occurrences_sublist.
  - apply first_occurrences_app.
Qed.

End DedupeLaws.

(** ** Tokens and names *)

Section TokenLaws.

Lemma space_is_space : is_space " " = true.
Proof. reflexivity. Qed.

Lemma join_tokens_splits (ts : list string) :
  Forall (fun t => is_token t = true) ts -> splits (join " " ts) ts.
Proof.
  induction 1 as [|t ts Ht Hts IH]; [constructor |].
  destruct ts as [|t' ts].
  - change (join " " [t]) with t. rewrite <- (append_empty_r t) at 1.
    apply splits_token; [exact Ht | now left | constructor].
  - rewrite join_cons2. apply splits_token; [exact Ht | now right |].
    rewrite append_cons, append_nil_l. apply splits_space; [reflexivity | exact IH].
Qed.

(** Tokens joined by single spaces are read back as they were. *)
Lemma tokenize_join (ts : list string) :
  Forall (fun t => is_token t = true) ts -> tokenize (join " " ts) = ts.
Proof.
  intros Hts. rewrite tokenize_split. now apply splits_split, join_tokens_splits.
Qed.

Lemma tokenize_tokens (text : string) :
  Forall (fun t => is_token t = true) (tokenize text).
Proof. rewrite tokenize_split. exact (splits_tokens _ _ (split_splits text)). Qed.

Lemma first_match_cases {A} (p : A -> bool) (l : list A) :
  Forall (fun x => p x = false) l \/
  exists left x right,
    l = left ++ x :: right /\ Forall (fun y => p y = false) left /\ p x = true.
Proof.
  induction l as [|a l IH]; [left; constructor |].
  destruct (p a) eqn:Hpa.
  - right. exists [], a, l. repeat split; [constructor | exact Hpa].
  - destruct IH as [Hnone | (left & x & right & -> & Hleft & Hx)].
    + left. now constructor.
    + right. exists (a :: left), x, right. repeat split; [now constructor | exact Hx].
Qed.

(** What the extractor returns, in every case. *)
Lemma extract_from_text_cases (text : string) :
  extract_from_text text = (EmptyString, EmptyString) \/
  exists left id right,
    tokenize text = left ++ id :: right /\
    STUDENT_ID_PATTERN id = true /\
    extract_from_text text =
    (id, join " " (first_occurrences (longer_side left right))) /\
    Forall (fun t => is_token t = true) (first_occurrences (longer_side left right)).
Proof.
  unfold extract_from_text.
  pose proof (tokenize_tokens text) as Htokens.
  destruct (first_match_cases STUDENT_ID_PATTERN (tokenize text))
    as [Hnone | (left & id & right & Heq & Hleft & Hid)].
  - left. now apply scan_tokens_none.
  - right. exists left, id, right. split; [exact Heq |]. split; [exact Hid |].
    assert (Hside : Forall (fun t => is_token t = true)
                      (first_occurrences (longer_side left right))).
    { rewrite Heq in Htokens. apply Forall_app in Htokens as [Hl Hr].
      apply List.Forall_forall. intros t Ht.
      apply (proj1 (first_occurrences_In _ _)) in Ht. unfold longer_side in Ht.
      destruct (length left <? length right)%nat.
      - exact (proj1 (List.Forall_forall _ _) (Forall_inv_tail Hr) t Ht).
      - exact (proj1 (List.Forall_forall _ _) Hl t Ht). }
    split; [| exact Hside].
    pose proof (scan_tokens_found (tokenize text) [] left right id Heq Hleft Hid) as Hs.
    simpl in Hs. rewrite <- Heq in Hs. rewrite Hs, dedupe_tokens_first_occurrences.
    f_equal. now apply strip_join_tokens.
Qed.

(** X4. A list of tokens (non-empty texts without white space) joined by
    single spaces is read back by the tokenizer as the same list. *)
Theorem tokenize_join_round_trip (ts : list string) :
  Forall (fun t => is_token t = true) ts -> tokenize (join " " ts) = ts.
Proof. apply tokenize_join. Qed.

End TokenLaws.

Lemma tokenize_join_round_trip_witness :
  tokenize (join " " ["Math"; "Tutoring"; "AB123456"]%string) =
  ["Math"; "Tutoring"; "AB123456"]%string.
Proof.
  apply (tokenize_join_round_trip ["Math"; "Tutoring"; "AB123456"]%string).
  repeat constructor.
Defined.

Section ExtractorLaws.
Context `{Builtins}.

(** X5. Whatever the activity is, the identifier returned is empty, and
    then the name is empty too, or it is a token of the text of the
    activity that has the shape of an identifier; the name has no token
    twice, all its tokens are tokens of the text, and it is these tokens
    joined by single spaces. *)
Theorem extract_student_fields_result (activity : pyobj) :
  let text := obj_str activity in
  let id := fst (extract_student_fields activity) in
  let name := snd (extract_student_fields activity) in
  ((id = EmptyString /\ name = EmptyString) \/
   (id_shape id = true /\ In id (tokenize text))) /\
  List.NoDup (tokenize name) /\
  (forall t, In t (tokenize name) -> In t (tokenize text)) /\
  join " " (tokenize name) = name.
Proof.
  cbv zeta. unfold extract_student_fields.
  destruct (extract_from_text_cases (obj_str activity))
    as [-> | (left & id & right & Heq & Hid & -> & Hside)]; simpl.
  - split; [now left |]. split; [constructor |]. split; [tauto | reflexivity].
  - pose proof (tokenize_tokens (obj_str activity)) as Htokens.
    rewrite (tokenize_join _ Hside). split; [right; split | split; [| split]].
    + rewrite Heq in Htokens. apply Forall_app in Htokens as [_ Hr].
      rewrite <- pattern_id_shape; [exact Hid |].
      exact (is_token_no_space id (Forall_inv Hr)).
    + rewrite Heq. apply in_or_app. right. now left.
    + apply first_occurrences_NoDup.
    + intros t Ht. apply (proj1 (first_occurrences_In _ _)) in Ht.
      rewrite Heq. unfold longer_side in Ht.
      destruct (length left <? length right)%nat; apply in_or_app;
        [right; now right | now left].
    + reflexivity.
Qed.

(** X6. The extractor reads the tokens only: on the text of an activity
    with every run of white space replaced by one space and none left at
    the ends, it returns what it returns on the activity. *)
Theorem extract_student_fields_normalized (activity : pyobj) :
  extract_student_fields (Scalar (CStr (join " " (tokenize (obj_str activity))))) =
  extract_student_fields activity.
Proof.
  unfold extract_student_fields, extract_from_text. simpl obj_str.
  now rewrite (tokenize_join _ (tokenize_tokens (obj_str activity))).
Qed.

End ExtractorLaws.

(** ** The fields of the records *)

Section StripLaws.

Lemma lstrip_head (s : string) :
  lstrip s = EmptyString \/
  exists c r, lstrip s = String c r /\ is_space c = false.
Proof.
  induction s as [|c s IH]; simpl; [now left |].
  destruct (is_space c) eqn:Hc; [exact IH | right; eauto].
Qed.

Lemma rstrip_idempotent (s : string) : rstrip (rstrip s) = rstrip s.
Proof.
  induction s as [|c s IH]; simpl; [reflexivity |].
  destruct (rstrip s) as [|c' r] eqn:Hr.
  - destruct (is_space c) eqn:Hc; simpl; [reflexivity | now rewrite Hc].
  - change (rstrip (String c (String c' r))) with
      (match rstrip (String c' r) with
       | EmptyString => if is_space c then EmptyString else String c EmptyString
       | r0 => String c r0
       end).
    now rewrite IH.
Qed.

Lemma rstrip_keeps_head (c : ascii) (r : string) :
  is_space c = false -> exists r', rstrip (String c r) = String c r'.
Proof.
  intros Hc. simpl. destruct (rstrip r); [rewrite Hc |]; eauto.
Qed.

Lemma strip_idempotent (s : string) : strip (strip s) = strip s.
Proof.
  unfold strip. destruct (lstrip_head s) as [-> | (c & r & -> & Hc)]; [reflexivity |].
  destruct (rstrip_keeps_head c r Hc) as [r' Hr']. rewrite Hr'.
  simpl lstrip. rewrite Hc, <- Hr'. apply rstrip_idempotent.
Qed.

Lemma strip_no_space (s : string) : no_space s = true -> strip s = s.
Proof.
  intros Hs. unfold strip.
  assert (Hl : lstrip s = s).
  { destruct s as [|c s]; [reflexivity |]. unfold no_space in Hs. simpl in Hs.
    apply andb_prop in Hs as [Hc _]. apply negb_true_iff in Hc. simpl. now rewrite Hc. }
  rewrite Hl. now apply rstrip_no_space.
Qed.

Lemma no_space_append (a b : string) :
  no_space a = true -> no_space b = true -> no_space (a +:+ b) = true.
Proof. unfold no_space. intros Ha Hb. now rewrite string_forall_append, Ha, Hb. Qed.

Lemma no_space_zeros (k : nat) : no_space (zeros k) = true.
Proof. induction k as [|k IH]; [reflexivity | exact IH]. Qed.

Lemma no_space_uint (d : Decimal.uint) : no_space (NilEmpty.string_of_uint d) = true.
Proof. induction d; simpl; auto. Qed.

Lemma no_space_zero_pad (width n : nat) : no_space (zero_pad width n) = true.
Proof.
  unfold zero_pad, string_of_nat. apply no_space_append; [apply no_space_zeros |].
  unfold NilZero.string_of_uint. destruct (Nat.to_uint n) eqn:Hd; try reflexivity;
    rewrite <- Hd; apply no_space_uint.
Qed.

Lemma no_space_string_of_nat (n : nat) : no_space (string_of_nat n) = true.
Proof.
  unfold string_of_nat, NilZero.string_of_uint.
  destruct (Nat.to_uint n) eqn:Hd; try reflexivity; rewrite <- Hd; apply no_space_uint.
Qed.

Lemma no_space_strftime (d : datetime) : no_space (strftime_mdY d) = true.
Proof.
  unfold strftime_mdY.
  repeat (apply no_space_append; [first [apply no_space_zero_pad | reflexivity] |]).
  apply no_space_string_of_nat.
Qed.

End StripLaws.

Section RecordFields.
Context `{Builtins}.

Lemma clean_text_trimmed (o : pyobj) (t : string) :
  clean_text o = Ok t -> strip t = t.
Proof.
  unfold clean_text. intros Hc. apply bind_Ok in Hc as (b & _ & Hc).
  injection Hc as <-. apply strip_idempotent.
Qed.

Lemma extract_from_text_trimmed (text : string) :
  strip (fst (extract_from_text text)) = fst (extract_from_text text) /\
  strip (snd (extract_from_text text)) = snd (extract_from_text text).
Proof.
  destruct (extract_from_text_cases text)
    as [-> | (left & id & right & Heq & Hid & -> & Hside)]; simpl.
  - now split.
  - split; [| now apply strip_join_tokens].
    pose proof (tokenize_tokens text) as Htokens. rewrite Heq in Htokens.
    apply Forall_app in Htokens as [_ Hr]. exact (strip_token id (Forall_inv Hr)).
Qed.

(** X7. The five text fields of every record that the transformer returns
    are trimmed: none begins or ends with white space. *)
Theorem record_text_fields_trimmed (df : DataFrame) (records : list TargetRecord) :
  build_target_dataframe df = Ok records ->
  Forall
    (fun rec =>
       strip (TherapistName rec) = TherapistName rec /\
       strip (DateOfService rec) = DateOfService rec /\
       strip (StudentId rec) = StudentId rec /\
       strip (StudentName rec) = StudentName rec /\
       strip (Service rec) = Service rec)
    records.
Proof.
  intros Hb. apply build_target_dataframe_records in Hb.
  induction Hb as [|row rec rows recs Hrec _ IH]; constructor; [| exact IH].
  apply build_record_fields in Hrec
    as (Hstudent & Htherapist & (has_date & _ & Hdate) & Hservice & _).
  unfold extract_student_fields in Hstudent.
  destruct (extract_from_text_trimmed
              (obj_str (row_get (columns df) row "ActivityDescription"))) as [Hid Hname].
  rewrite <- Hstudent in Hid, Hname. simpl in Hid, Hname.
  repeat split; try assumption.
  - exact (clean_text_trimmed _ _ Htherapist).
  - rewrite Hdate. destruct has_date; [| reflexivity].
    destruct (row_get (columns df) row "Date") as [[| | | | |d] | vs];
      try apply strip_idempotent.
    apply strip_no_space, no_space_strftime.
  - exact (clean_text_trimmed _ _ Hservice).
Qed.

(** X8. The StudentId and StudentName of every record are what the
    extractor returns for the ActivityDescription of its row; so the
    StudentId is empty, and then the StudentName is empty, or it has the
    shape of an identifier. *)
Theorem student_fields_of_records (df : DataFrame) (records : list TargetRecord) :
  build_target_dataframe df = Ok records ->
  Forall2
    (fun row rec =>
       (StudentId rec, StudentName rec) =
         extract_student_fields (row_get (columns df) row "ActivityDescription") /\
       ((StudentId rec = EmptyString /\ StudentName rec = EmptyString) \/
        id_shape (StudentId rec) = true))
    (List.filter (fun row => negb (empty_row row)) (rows df)) records.
Proof.
  intros Hb. apply build_target_dataframe_records in Hb.
  eapply Forall2_weaken; [| exact Hb]. cbn beta. intros row rec Hrec.
  apply build_record_fields in Hrec as (Hstudent & _).
  split; [exact Hstudent |]. unfold extract_student_fields in Hstudent.
  destruct (extract_from_text_cases
              (obj_str (row_get (columns df) row "ActivityDescription")))
    as [Hnone | (left & id & right & Heq & Hid & Hfound & _)].
  - rewrite Hnone in Hstudent. injection Hstudent as -> ->. now left.
  - rewrite Hfound in Hstudent. injection Hstudent as -> _. right.
    pose proof (tokenize_tokens (obj_str (row_get (columns df) row "ActivityDescription")))
      as Htokens.
    rewrite Heq in Htokens. apply Forall_app in Htokens as [_ Hr].
    rewrite <- pattern_id_shape; [exact Hid |].
    exact (is_token_no_space id (Forall_inv Hr)).
Qed.

Lemma no_space_string_of_int (i : Decimal.int) :
  no_space (NilZero.string_of_int i) = true.
Proof.
  assert (Huint : forall d, no_space (NilZero.string_of_uint d) = true).
  { intros d. unfold NilZero.string_of_uint.
    destruct d eqn:Hd; try reflexivity; rewrite <- Hd; apply no_space_uint. }
  destruct i as [d | d]; simpl; [apply Huint |].
  change (no_space (String "-" (NilZero.string_of_uint d)) = true).
  unfold no_space. simpl. exact (Huint d).
Qed.

Lemma clean_text_of_cell (v : cell) (t : string) :
  clean_text (Scalar v) = Ok t -> text_of_cell v t.
Proof.
  rewrite clean_text_scalar. intros [= <-].
  destruct v as [| s | b | z | f | d]; simpl.
  - reflexivity.
  - now destruct s.
  - now destruct b.
  - destruct (z =? 0)%Z; [reflexivity |]. simpl.
    apply strip_no_space, no_space_string_of_int.
  - destruct (f =? 0)%float; [reflexivity |]. simpl. now destruct (is_nan f).
  - reflexivity.
Qed.

(** X9. The TherapistName of every record is, by the kind of the
    TherapistName of its row: the text trimmed for a text; the empty text
    for [None], for [False] and for the numbers 0, 0.0 and -0.0; [True]
    for [True]; the decimal text for another integer; [nan] for NaN and
    the text of the number trimmed for another float; the text of the
    date for a date.  The Service is the same function of the
    PlacementDesc. *)
Theorem therapist_and_service_of_records (df : DataFrame) (records : list TargetRecord) :
  build_target_dataframe df = Ok records ->
  Forall2
    (fun row rec =>
       (forall v, row_get (columns df) row "TherapistName" = Scalar v ->
                  text_of_cell v (TherapistName rec)) /\
       (forall v, row_get (columns df) row "PlacementDesc" = Scalar v ->
                  text_of_cell v (Service rec)))
    (List.filter (fun row => negb (empty_row row)) (rows df)) records.
Proof.
  intros Hb. apply build_target_dataframe_records in Hb.
  eapply Forall2_weaken; [| exact Hb]. cbn beta. intros row rec Hrec.
  apply build_record_fields in Hrec as (_ & Htherapist & _ & Hservice & _).
  split; intros v Hv; [rewrite Hv in Htherapist | rewrite Hv in Hservice];
    now apply clean_text_of_cell.
Qed.

End RecordFields.

Lemma record_text_fields_trimmed_witness :
  Forall
    (fun rec =>
       strip (TherapistName rec) = TherapistName rec /\
       strip (DateOfService rec) = DateOfService rec /\
       strip (StudentId rec) = StudentId rec /\
       strip (StudentName rec) = StudentName rec /\
       strip (Service rec) = Service rec)
    sample_records.
Proof.
  apply (@record_text_fields_trimmed sample_builtins sample_source sample_records).
  vm_compute. reflexivity.
Defined.

Lemma student_fields_of_records_witness :
  Forall2
    (fun row rec =>
       (StudentId rec, StudentName rec) =
         @extract_student_fields sample_builtins
           (row_get (columns sample_source) row "ActivityDescription") /\
       ((StudentId rec = EmptyString /\ StudentName rec = EmptyString) \/
        id_shape (StudentId rec) = true))
    (List.filter (fun row => negb (empty_row row)) (rows sample_source)) sample_records.
Proof.
  apply (@student_fields_of_records sample_builtins sample_source sample_records).
  vm_compute. reflexivity.
Defined.

Lemma therapist_and_service_of_records_witness :
  Forall2
    (fun row rec =>
       (forall v, row_get (columns sample_source) row "TherapistName" = Scalar v ->
                  @text_of_cell sample_builtins v (TherapistName rec)) /\
       (forall v, row_get (columns sample_source) row "PlacementDesc" = Scalar v ->
                  @text_of_cell sample_builtins v (Service rec)))
    (List.filter (fun row => negb (empty_row row)) (rows sample_source)) sample_records.
Proof.
  apply (@therapist_and_service_of_records sample_builtins sample_source sample_records).
  vm_compute. reflexivity.
Defined.

(** ** The transformer row by row *)

Section TransformerLaws.
Context `{Builtins}.

(** The records already collected do not influence the rest of the loop. *)
Lemma build_loop_acc (index : list cell) (body : list (list cell))
    (acc : list TargetRecord) :
  build_loop index body acc =
  let? new := build_loop index body [] in Ok (acc ++ new).
Proof.
  revert acc. induction body as [|row body IH]; intros acc; simpl.
  - now rewrite app_nil_r.
  - destruct (forallb isna row); [apply IH |].
    destruct (build_record index row) as [rec | e]; simpl; [| reflexivity].
    rewrite (IH (acc ++ [rec])), (IH [rec]).
    destruct (build_loop index body []) as [new | e]; simpl; [| reflexivity].
    now rewrite <- app_assoc.
Qed.

Lemma build_loop_app (index : list cell) (b1 b2 : list (list cell))
    (acc : list TargetRecord) :
  build_loop index (b1 ++ b2) acc =
  let? r1 := build_loop index b1 acc in build_loop index b2 r1.
Proof.
  revert acc. induction b1 as [|row b1 IH]; intros acc; simpl; [reflexivity |].
  destruct (forallb isna row); [apply IH |].
  destruct (build_record index row) as [rec | e]; simpl; [apply IH | reflexivity].
Qed.

Lemma build_loop_first_failure (index : list cell) (body : list (list cell))
    (acc : list TargetRecord) (e : exn) :
  build_loop index body acc = Raise e ->
  exists before row after,
    body = before ++ row :: after /\
    (exists records, build_loop index before [] = Ok records) /\
    empty_row row = false /\
    build_record index row = Raise e.
Proof.
  revert acc. induction body as [|row body IH]; intros acc Hloop; simpl in Hloop;
    [discriminate |].
  destruct (forallb isna row) eqn:Hempty.
  - apply IH in Hloop as (before & r & after & -> & [records Hbefore] & Hr & He).
    exists (row :: before), r, after. repeat split; try assumption.
    exists records. simpl. now rewrite Hempty.
  - destruct (build_record index row) as [rec | e0] eqn:Hrec; simpl in Hloop.
    + apply IH in Hloop as (before & r & after & -> & [records Hbefore] & Hr & He).
      exists (row :: before), r, after. repeat split; try assumption.
      exists ([rec] ++ records). simpl. rewrite Hempty, Hrec. simpl.
      rewrite build_loop_acc, Hbefore. reflexivity.
    + injection Hloop as ->. exists [], row, body.
      repeat split; [now exists [] | exact Hempty | exact Hrec].
Qed.

(** X10. The transformer keeps nothing from one row to the next: the
    records of a frame whose rows are two batches end to end are the
    records of the first batch followed by those of the second, and the
    frame fails when one of the batches does. *)
Theorem build_target_dataframe_batches (index : list cell) (b1 b2 : list (list cell)) :
  build_target_dataframe (mk_frame index (b1 ++ b2)) =
  let? r1 := build_target_dataframe (mk_frame index b1) in
  let? r2 := build_target_dataframe (mk_frame index b2) in
  Ok (r1 ++ r2).
Proof.
  unfold build_target_dataframe. simpl. rewrite build_loop_app.
  destruct (build_loop index b1 []) as [r1 | e]; simpl; [| reflexivity].
  apply build_loop_acc.
Qed.

(** X11. The transformer fails exactly when the record of some row that
    is not empty cannot be built, and the exception it raises is the one
    of the first such row: the rows before it all give their records. *)
Theorem build_target_dataframe_first_failure (df : DataFrame) (e : exn) :
  build_target_dataframe df = Raise e <->
  exists before row after,
    rows df = before ++ row :: after /\
    (exists records, build_target_dataframe (mk_frame (columns df) before) = Ok records) /\
    empty_row row = false /\
    build_record (columns df) row = Raise e.
Proof.
  unfold build_target_dataframe. simpl. split.
  - apply build_loop_first_failure.
  - intros (before & row & after & -> & [records Hbefore] & Hempty & Hrow).
    rewrite build_loop_app, Hbefore. simpl.
    unfold empty_row in Hempty. now rewrite Hempty, Hrow.
Qed.

(** The record of a row of a frame with the eight canonical columns does
    not depend on its RateName, ChargeRate and TotalCharge. *)
Lemma build_record_unused (a t d p q r c tc r' c' tc' : cell) :
  build_record (List.map CStr EXPECTED_SOURCE_COLUMNS) [a; t; d; p; r; q; c; tc] =
  build_record (List.map CStr EXPECTED_SOURCE_COLUMNS) [a; t; d; p; r'; q; c'; tc'].
Proof. reflexivity. Qed.

(** X12. On a frame with the eight canonical columns the RateName,
    ChargeRate and TotalCharge are read for one thing only, to tell
    whether a row is empty: two frames whose rows agree on the five other
    cells and on being empty give the same records or the same failure. *)
Theorem unused_columns_do_not_matter (body body' : list (list cell)) :
  Forall2
    (fun row row' =>
       empty_row row = empty_row row' /\
       exists a t d p q r c tc r' c' tc',
         row = [a; t; d; p; r; q; c; tc] /\ row' = [a; t; d; p; r'; q; c'; tc'])
    body body' ->
  build_target_dataframe (mk_frame (List.map CStr EXPECTED_SOURCE_COLUMNS) body) =
  build_target_dataframe (mk_frame (List.map CStr EXPECTED_SOURCE_COLUMNS) body').
Proof.
  intros Hall. unfold build_target_dataframe. cbn [columns rows].
  generalize (@nil TargetRecord).
  induction Hall as [|row row' body body' Hrow _ IH]; intros acc; [reflexivity |].
  destruct Hrow as (Hempty & a & t & d & p & q & r & c & tc & r' & c' & tc' & -> & ->).
  cbn [build_loop]. unfold empty_row in Hempty. rewrite Hempty.
  destruct (forallb isna [a; t; d; p; r'; q; c'; tc']); [apply IH |].
  rewrite (build_record_unused a t d p q r c tc r' c' tc').
  destruct (build_record _ _) as [rec | e]; simpl; [apply IH | reflexivity].
Qed.

End TransformerLaws.

Lemma unused_columns_do_not_matter_witness :
  @build_target_dataframe sample_builtins
    (mk_frame (List.map CStr EXPECTED_SOURCE_COLUMNS)
       [ [ CStr "Jane AB123456 Doe Smith"; CStr "Ann Lee"; NaN; CStr "Speech";
           CStr "Hourly"; CFloat 1.5; CInt 50; CInt 75 ] ]) =
  @build_target_dataframe sample_builtins
    (mk_frame (List.map CStr EXPECTED_SOURCE_COLUMNS)
       [ [ CStr "Jane AB123456 Doe Smith"; CStr "Ann Lee"; NaN; CStr "Speech";
           NaN; CFloat 1.5; CStr "fifty"; CStr "n/a" ] ]).
Proof.
  apply (@unused_columns_do_not_matter sample_builtins).
  constructor; [| constructor]. split; [reflexivity |].
  do 11 eexists. split; reflexivity.
Defined.

(** ** The frame of the loader *)

Section LoaderLaws.

Lemma cells_at_length_eq (name : string) (index row : list cell) :
  length row = length index -> length (cells_at name index row) = label_count name index.
Proof.
  revert row. induction index as [|label rest IH]; intros row Hlen.
  - destruct row; [reflexivity | discriminate].
  - destruct row as [|c row]; [discriminate |].
    rewrite cells_at_cons. unfold label_count in *. simpl.
    destruct (label_is name label); simpl; rewrite IH; auto.
Qed.

Lemma flat_map_length_eq {A B C} (f : A -> list B) (g : A -> list C) (l : list A) :
  (forall x, length (f x) = length (g x)) ->
  length (flat_map f l) = length (flat_map g l).
Proof.
  intros Hfg. induction l as [|a l IH]; simpl; [reflexivity |].
  now rewrite !length_app, Hfg, IH.
Qed.

Lemma flat_map_length_ge {A B} (f : A -> list B) (l : list A) :
  (forall x, In x l -> 1 <= length (f x)) -> length l <= length (flat_map f l).
Proof.
  induction l as [|a l IH]; intros Hf; simpl; [lia |].
  rewrite length_app. specialize (Hf a (or_introl eq_refl)) as Ha.
  assert (length l <= length (flat_map f l)) by (apply IH; intros x Hx; apply Hf; now right).
  lia.
Qed.

Lemma filter_length_bound {A} (p : A -> bool) (l : list A) :
  length (List.filter p l) <= length l.
Proof. induction l as [|a l IH]; simpl; [lia |]. destruct (p a); simpl; lia. Qed.

Lemma load_present (raw : list (list cell)) (df : DataFrame) (name : string) :
  load_source_dataframe raw = Ok df -> In name EXPECTED_SOURCE_COLUMNS ->
  label_in name (nth 1 raw []) = true.
Proof.
  intros Hload Hin.
  destruct (Nat.lt_ge_cases (length raw) 3) as [Hlt | Hge].
  { rewrite (load_short raw Hlt) in Hload. discriminate. }
  rewrite (load_long raw Hge) in Hload.
  destruct (absent_columns (nth 1 raw [])) as [|? ?] eqn:Habs; [| discriminate].
  destruct (label_in name (nth 1 raw [])) eqn:Hl; [reflexivity |].
  assert (Hmem : In name (absent_columns (nth 1 raw [])))
    by (apply absent_columns_In; now split).
  rewrite Habs in Hmem. destruct Hmem.
Qed.

Lemma load_frame (raw : list (list cell)) (df : DataFrame) :
  load_source_dataframe raw = Ok df ->
  3 <= length raw /\
  df = select_columns EXPECTED_SOURCE_COLUMNS
         {| columns := nth 1 raw []; rows := dropna_all (drop 2 raw) |}.
Proof.
  intros Hload.
  destruct (Nat.lt_ge_cases (length raw) 3) as [Hlt | Hge].
  { rewrite (load_short raw Hlt) in Hload. discriminate. }
  rewrite (load_long raw Hge) in Hload.
  destruct (absent_columns (nth 1 raw [])); [| discriminate].
  injection Hload as <-. now split.
Qed.

(** X13. The frame that the loader returns for a rectangular table is
    rectangular too, also when the header row repeats labels: every row
    has one cell per column.  Its columns all carry required labels,
    each required label is among them, so there are at least eight, and
    it has one row for each row of the data body that is not empty. *)
Theorem load_source_dataframe_frame (raw : list (list cell)) (df : DataFrame) :
  load_source_dataframe raw = Ok df ->
  rectangular (length (nth 1 raw [])) raw ->
  rectangular (length (columns df)) (rows df) /\
  Forall (fun label => exists name, In name EXPECTED_SOURCE_COLUMNS /\ label = CStr name)
    (columns df) /\
  (forall name, In name EXPECTED_SOURCE_COLUMNS -> label_in name (columns df) = true) /\
  8 <= length (columns df) /\
  length (rows df) =
    length (List.filter (fun row => negb (empty_row row)) (drop 2 raw)).
Proof.
  intros Hload Hrect. pose proof (load_present raw df) as Hpresent.
  specialize (fun name => Hpresent name Hload).
  apply load_frame in Hload as [_ ->]. unfold select_columns. cbn [columns rows].
  split; [| split; [| split; [| split]]].
  - unfold rectangular, dropna_all. apply Forall_map.
    apply filter_Forall, drop_Forall.
    eapply Forall_impl; [exact Hrect |]. cbn beta. intros row Hlen.
    apply flat_map_length_eq. intros name.
    now rewrite cells_at_length_eq.
  - apply List.Forall_forall. intros label Hin.
    apply in_flat_map in Hin as (name & Hname & Hin).
    apply List.filter_In in Hin as [_ Hl]. exists name. split; [exact Hname |].
    now apply label_is_eq.
  - intros name Hin. unfold label_in. apply existsb_exists.
    specialize (Hpresent name Hin). unfold label_in in Hpresent.
    apply existsb_exists in Hpresent as (label & Hlabel & Hl).
    exists label. split; [| exact Hl].
    apply in_flat_map. exists name. split; [exact Hin |].
    apply List.filter_In. now split.
  - change 8 with (length EXPECTED_SOURCE_COLUMNS). apply flat_map_length_ge.
    intros name Hin. apply (proj1 (label_in_count name (nth 1 raw []))).
    now apply Hpresent.
  - unfold dropna_all, empty_row. apply length_map.
Qed.

(** X14. The loader reads neither the title row nor the empty rows of
    the data body: with another title row and with an empty row taken
    out of a body that has other rows, it returns the same frame or the
    same failure. *)
Theorem load_source_dataframe_skips (title title' header blank : list cell)
    (before after : list (list cell)) :
  empty_row blank = true ->
  before ++ after <> [] ->
  load_source_dataframe (title :: header :: before ++ blank :: after) =
  load_source_dataframe (title' :: header :: before ++ after).
Proof.
  intros Hblank Hbody. unfold load_source_dataframe.
  assert (Hlen : 1 <= length (before ++ after))
    by (destruct (before ++ after); [contradiction | simpl; lia]).
  destruct (Nat.ltb_spec (length (title :: header :: before ++ blank :: after)) 3) as [Hl | _].
  { simpl in Hl. rewrite length_app in Hl. simpl in Hl. lia. }
  destruct (Nat.ltb_spec (length (title' :: header :: before ++ after)) 3) as [Hl | _].
  { simpl in Hl. lia. }
  cbn [nth skipn columns]. change (drop 0 (before ++ blank :: after)) with (before ++ blank :: after).
  change (drop 0 (before ++ after)) with (before ++ after). unfold dropna_all.
  rewrite !List.filter_app. cbn [List.filter].
  unfold empty_row in Hblank. rewrite Hblank. reflexivity.
Qed.

End LoaderLaws.

Lemma load_source_dataframe_frame_witness :
  rectangular (length (columns repeated_label_source)) (rows repeated_label_source) /\
  Forall (fun label => exists name, In name EXPECTED_SOURCE_COLUMNS /\ label = CStr name)
    (columns repeated_label_source) /\
  (forall name, In name EXPECTED_SOURCE_COLUMNS ->
                label_in name (columns repeated_label_source) = true) /\
  8 <= length (columns repeated_label_source) /\
  length (rows repeated_label_source) =
    length (List.filter (fun row => negb (empty_row row)) (drop 2 repeated_label_raw)).
Proof.
  apply (load_source_dataframe_frame repeated_label_raw repeated_label_source).
  - reflexivity.
  - repeat constructor.
Defined.

Lemma load_source_dataframe_skips_witness :
  load_source_dataframe
    [ [CStr "Report"]; [CStr "Date"]; [NaN]; [CStr "03/05/2024"] ] =
  load_source_dataframe
    [ [CStr "Timesheet"]; [CStr "Date"]; [CStr "03/05/2024"] ].
Proof.
  apply (load_source_dataframe_skips [CStr "Report"] [CStr "Timesheet"] [CStr "Date"]
           [NaN] [] [[CStr "03/05/2024"]]).
  - reflexivity.
  - discriminate.
Defined.

(** ** Writing over a sheet *)

Section WriterLaws.

Lemma index_of_Some (x : string) (l : list string) (j : nat) :
  index_of x l = Some j -> l !! j = Some x.
Proof.
  revert j. induction l as [|y l IH]; intros j; simpl; [discriminate |].
  destruct (String.eqb_spec y x) as [-> | _].
  - now intros [= <-].
  - destruct (index_of x l) as [k |]; [| discriminate]. intros [= <-]. now apply IH.
Qed.

Lemma index_of_None (x : string) (l : list string) : index_of x l = None -> x ∉ l.
Proof.
  induction l as [|y l IH]; simpl; intros Hnone Hin; [now apply elem_of_nil in Hin |].
  destruct (String.eqb_spec y x) as [-> | Hne]; [discriminate |].
  apply elem_of_cons in Hin as [-> | Hin]; [congruence |].
  destruct (index_of x l); [discriminate | now apply IH].
Qed.

(** Every cell of the sheet that the writer returns. *)
Lemma write_to_template_lookup (df_target : list TargetRecord) (template sheet : worksheet)
    (letter : string) (r : nat) :
  write_to_template df_target template = Ok sheet ->
  sheet !! (letter, r) =
  match value_at df_target letter r with
  | Some v => Some (written v (sheet_at template (letter, r)))
  | None => template !! (letter, r)
  end.
Proof.
  unfold write_to_template. intros Hwrite.
  apply write_rows_cells in Hwrite as [Hframe Hcells].
  unfold value_at. destruct (Nat.leb_spec start_row r) as [Hr | Hr].
  2:{ apply Hframe. right. left. exact Hr. }
  destruct (df_target !! (r - start_row)) as [record |] eqn:Hrecord.
  2:{ apply Hframe. right. right. apply lookup_ge_None in Hrecord. lia. }
  destruct (index_of letter column_letters) as [j |] eqn:Hj.
  2:{ apply Hframe. left. now apply index_of_None. }
  apply index_of_Some in Hj.
  destruct (record_values record !! j) as [v |] eqn:Hv.
  - replace r with (start_row + (r - start_row)) at 1 2 by lia.
    exact (Hcells _ _ _ _ _ Hrecord Hv Hj).
  - apply lookup_ge_None in Hv. apply lookup_lt_Some in Hj.
    rewrite record_values_length in Hv. lia.
Qed.

Lemma value_at_range (df_target : list TargetRecord) (letter : string) (r : nat) (v : value) :
  value_at df_target letter r = Some v -> r - start_row < length df_target.
Proof.
  unfold value_at. destruct (start_row <=? r)%nat; [| discriminate].
  destruct (df_target !! (r - start_row)) eqn:Hrecord; [| discriminate].
  intros _. now apply lookup_lt_Some in Hrecord.
Qed.

Lemma value_at_None (df1 df2 : list TargetRecord) (letter : string) (r : nat) :
  length df1 <= length df2 ->
  value_at df2 letter r = None -> value_at df1 letter r = None.
Proof.
  intros Hlen. unfold value_at. destruct (start_row <=? r)%nat; [| reflexivity].
  destruct (df2 !! (r - start_row)) as [record2 |] eqn:H2.
  - destruct (index_of letter column_letters) as [j |] eqn:Hj.
    + intros Hnone. apply lookup_ge_None in Hnone. apply index_of_Some in Hj.
      apply lookup_lt_Some in Hj. rewrite record_values_length in Hnone. lia.
    + now destruct (df1 !! (r - start_row)).
  - intros _. apply lookup_ge_None in H2.
    rewrite (proj2 (lookup_ge_None df1 (r - start_row))) by lia. reflexivity.
Qed.

Lemma write_over_write (df1 df2 : list TargetRecord) (template sheet1 : worksheet) :
  length df1 <= length df2 ->
  write_to_template df1 template = Ok sheet1 ->
  write_to_template df2 sheet1 = write_to_template df2 template.
Proof.
  intros Hlen Hfirst.
  destruct (write_rows_total df2 sheet1 start_row) as [s Hs].
  destruct (write_rows_total df2 template start_row) as [s' Hs'].
  change (write_to_template df2 sheet1 = Ok s) in Hs.
  change (write_to_template df2 template = Ok s') in Hs'.
  rewrite Hs, Hs'. f_equal. apply map_eq. intros [letter r].
  rewrite (write_to_template_lookup _ _ _ letter r Hs).
  rewrite (write_to_template_lookup _ _ _ letter r Hs').
  pose proof (write_to_template_lookup _ _ _ letter r Hfirst) as H1.
  destruct (value_at df2 letter r) as [v |] eqn:Hv.
  - f_equal. unfold written. f_equal. unfold sheet_at at 1. rewrite H1.
    now destruct (value_at df1 letter r).
  - rewrite H1, (value_at_None df1 df2 letter r Hlen Hv). reflexivity.
Qed.

(** X15. A later run of the writer wins: on the sheet left by a run with
    no more records, the writer returns the sheet it returns on the
    template itself. *)
Theorem write_to_template_overwrites (df1 df2 : list TargetRecord)
    (template sheet1 : worksheet) :
  length df1 <= length df2 ->
  write_to_template df1 template = Ok sheet1 ->
  write_to_template df2 sheet1 = write_to_template df2 template.
Proof. apply write_over_write. Qed.

(** X16. The writer is idempotent: on the sheet that it returned for a
    list of records it returns that sheet again for the same records. *)
Theorem write_to_template_idempotent (df_target : list TargetRecord)
    (template sheet : worksheet) :
  write_to_template df_target template = Ok sheet ->
  write_to_template df_target sheet = Ok sheet.
Proof.
  intros Hwrite. now rewrite (write_over_write df_target df_target template sheet).
Qed.

End WriterLaws.

Lemma write_to_template_overwrites_witness :
  write_to_template sample_records sample_first_sheet =
  write_to_template sample_records sample_template.
Proof.
  apply (write_to_template_overwrites (take 1 sample_records) sample_records
           sample_template sample_first_sheet).
  - simpl. lia.
  - vm_compute. reflexivity.
Defined.

Lemma write_to_template_idempotent_witness :
  write_to_template (take 1 sample_records) sample_first_sheet = Ok sample_first_sheet.
Proof.
  apply (write_to_template_idempotent (take 1 sample_records) sample_template
           sample_first_sheet).
  vm_compute. reflexivity.
Defined.

Section WriterStaleRows.

(** X17. The writer never clears a row: after a run with fewer records
    on the sheet left by an earlier run, the rows of the earlier run past
    the new records still hold the values of the earlier records. *)
Theorem write_to_template_keeps_stale_rows (df1 df2 : list TargetRecord)
    (template sheet1 sheet2 : worksheet) (i j : nat) (record : TargetRecord)
    (v : value) (letter : string) :
  write_to_template df1 template = Ok sheet1 ->
  write_to_template df2 sheet1 = Ok sheet2 ->
  length df2 <= i ->
  df1 !! i = Some record ->
  record_values record !! j = Some v ->
  column_letters !! j = Some letter ->
  sheet2 !! (letter, start_row + i) =
  Some (written v (sheet_at template (letter, start_row + i))).
Proof.
  unfold write_to_template. intros H1 H2 Hi Hrecord Hv Hletter.
  apply write_rows_cells in H1 as [_ Hcells1].
  apply write_rows_cells in H2 as [Hframe2 _].
  rewrite Hframe2 by (right; right; lia).
  exact (Hcells1 i record j v letter Hrecord Hv Hletter).
Qed.

End WriterStaleRows.

Lemma write_to_template_keeps_stale_rows_witness :
  exists sheet1 sheet2,
    write_to_template sample_records sample_template = Ok sheet1 /\
    write_to_template (take 1 sample_records) sheet1 = Ok sheet2 /\
    sheet2 !! ("C"%string, 8) = Some (mk_sheet_cell (Some (VStr "CD654321")) NoFill "").
Proof.
  destruct (write_rows_total sample_records sample_template start_row) as [sheet1 H1].
  destruct (write_rows_total (take 1 sample_records) sheet1 start_row) as [sheet2 H2].
  exists sheet1, sheet2. split; [exact H1 |]. split; [exact H2 |].
  apply (write_to_template_keeps_stale_rows sample_records (take 1 sample_records)
           sample_template sheet1 sheet2 1 2
           (mk_target "nan" "03/06/2024" "CD654321" "Math Tutoring" "OT" (VFloat 120))
           (VStr "CD654321") "C"%string H1 H2).
  - simpl. lia.
  - reflexivity.
  - reflexivity.
  - reflexivity.
Defined.

(** ** The whole conversion *)

Section ConversionLaws.
Context `{Builtins}.

Lemma build_records_bound (df : DataFrame) (records : list TargetRecord) :
  build_target_dataframe df = Ok records -> length records <= length (rows df).
Proof.
  intros Hb. apply build_target_dataframe_records in Hb.
  apply Forall2_same_length in Hb. rewrite <- Hb. apply filter_length_bound.
Qed.

(** X19. A conversion changes nothing outside the data area: the cells
    in rows 1 to 6, the cells in columns other than A to F, and the cells
    in the rows from [5 + n] on, where [n] is the number of rows of the
    source table, are those of the template. *)
Theorem convert_timesheet_preserves (raw : list (list cell))
    (template sheet : worksheet) (letter : string) (r : nat) :
  convert_timesheet raw template = Ok sheet ->
  letter ∉ column_letters \/ r < 7 \/ 5 + length raw <= r ->
  sheet !! (letter, r) = template !! (letter, r).
Proof.
  unfold convert_timesheet. intros Hconvert Hout.
  apply bind_Ok in Hconvert as (df & Hload & Hconvert).
  apply bind_Ok in Hconvert as (records & Hbuild & Hwrite).
  apply build_records_bound in Hbuild.
  apply load_frame in Hload as [Hlen ->].
  unfold select_columns in Hbuild. cbn [rows] in Hbuild.
  rewrite length_map in Hbuild. unfold dropna_all in Hbuild.
  pose proof (filter_length_bound (fun row => negb (forallb isna row)) (drop 2 raw)) as Hf.
  rewrite length_drop in Hf.
  unfold write_to_template in Hwrite.
  apply write_rows_cells in Hwrite as [Hframe _].
  apply Hframe. unfold start_row.
  destruct Hout as [Hl | [Hr | Hr]]; [now left | right; now left | right; right; lia].
Qed.

End ConversionLaws.

Lemma convert_timesheet_preserves_witness :
  sample_converted_sheet !! ("A"%string, 1) = sample_template !! ("A"%string, 1).
Proof.
  apply (@convert_timesheet_preserves sample_builtins sample_raw sample_template
           sample_converted_sheet "A"%string 1).
  - vm_compute. reflexivity.
  - right. left. lia.
Defined.

(** ** When the name is empty *)

Section EmptyName.
Context `{Builtins}.

Lemma join_tokens_empty (ts : list string) :
  Forall (fun t => is_token t = true) ts ->
  (join " " ts = EmptyString <-> ts = []).
Proof.
  intros Hts. split; [| now intros ->].
  destruct ts as [|t ts]; [reflexivity |]. intros Hjoin.
  destruct (join_tokens_trimmed t ts Hts) as (_ & _ & Hne). cbv zeta in Hne.
  contradiction.
Qed.

Lemma first_occurrences_nil (l : list string) : first_occurrences l = [] <-> l = [].
Proof. destruct l; simpl; split; intros Hl; congruence. Qed.

Lemma longer_side_nil (left right : list string) :
  longer_side left right = [] <-> left = [] /\ right = [].
Proof.
  unfold longer_side. destruct (Nat.ltb_spec (length left) (length right)) as [Hlt | Hge].
  - split; [intros -> | intros [-> ->]]; simpl in Hlt; lia.
  - split; [intros -> | now intros [-> _]].
    destruct right; [now split | simpl in Hge; lia].
Qed.

(** X20. The name returned is empty in two cases only: no identifier is
    found, or the identifier is the only token of the text. *)
Theorem student_name_empty (activity : pyobj) :
  let tokens := tokenize (obj_str activity) in
  let id := fst (extract_student_fields activity) in
  let name := snd (extract_student_fields activity) in
  name = EmptyString <-> id = EmptyString \/ tokens = [id].
Proof.
  cbv zeta. unfold extract_student_fields.
  destruct (extract_from_text_cases (obj_str activity))
    as [-> | (left & id & right & Heq & Hid & -> & Hside)]; simpl.
  - split; [now left | reflexivity].
  - pose proof (tokenize_tokens (obj_str activity)) as Htokens.
    rewrite Heq in Htokens. apply Forall_app in Htokens as [_ Hr].
    pose proof (is_token_nonempty id (Forall_inv Hr)) as Hne.
    rewrite (join_tokens_empty _ Hside), first_occurrences_nil, longer_side_nil, Heq.
    split.
    + intros [-> ->]. now right.
    + intros [-> | Hone]; [discriminate |].
      destruct left as [|t left]; simpl in Hone.
      * injection Hone as ->. now split.
      * injection Hone as _ Hrest. now destruct left.
Qed.

End EmptyName.
